(** * Mara Sports: registration, capacity, payment and sponsorship models

    A shallow embedding of the ORM model classes of
    [backend/app/db/models/{payment,registration,sport,sponsorship}.py]
    and of [backend/app/services/payment_service.py], followed by the
    properties of the registration / capacity / payment subsystem.

    Conventions of the embedding.
    - A [Decimal] amount is an integer number of hundredths (the columns
      are [Numeric(10, 2)]): [10000] is [100.00].  Comparison, addition
      and subtraction of such amounts are exact, as they are on Python's
      [Decimal].
    - A method that mutates [self] is a function from the object before
      the call to an [outcome]: [Returned] with the object after the
      call, or [Raised] with the exception.  Every [raise] of the modelled
      methods comes before the first assignment, so after [Raised] the
      object is the one before the call ([settle]).
    - [Optional[T]] is [option T]; the truth value Python gives to an
      optional string, dictionary or number is written out
      ([truthy_str], [truthy_dict], [truthy_dec]).
    - [str.lower()] is [lower]: the fold of [A]..[Z] on ASCII strings,
      and a parameter, [unicode_lower], on every other string, where the
      Unicode tables decide.
    - A [str]-valued [Enum] is an inductive type together with its
      [value] string; the relationship [SportCategory.registrations] is
      the list of the category's registration objects. *)

From stdpp Require Import base option list gmap strings.
From Stdlib Require Import ZArith Lia Ascii String.

Local Open Scope Z_scope.

(** ** Python values shared by the models *)

Definition UUID : Type := positive.
Definition Decimal : Type := Z.
Definition datetime : Type := Z.

(** [Dict[str, Any]] of the provider payloads; only string entries are read. *)
Abbreviation dict := (gmap string string).

Inductive exn : Type :=
| ValueError (msg : string).

Inductive outcome (A : Type) : Type :=
| Returned (a : A)
| Raised (e : exn).
Arguments Returned {A} a.
Arguments Raised {A} e.

(** The object a caller holds once the call is over. *)
Definition settle {A : Type} (before : A) (o : outcome A) : A :=
  match o with
  | Returned after => after
  | Raised _ => before
  end.

Definition raised {A : Type} (o : outcome A) : bool :=
  match o with
  | Returned _ => false
  | Raised _ => true
  end.

#[global] Instance exn_eq_dec : EqDecision exn.
Proof. solve_decision. Defined.

(** [if s:] for [s : Optional[str]]. *)
Definition truthy_str (s : option string) : bool :=
  match s with
  | Some v => negb (String.eqb v "")
  | None => false
  end.

(** [if d:] for [d : Optional[dict]]. *)
Definition truthy_dict (d : option dict) : bool :=
  match d with
  | Some m => negb (bool_decide (m = ∅))
  | None => false
  end.

(** [if x:] for [x : Optional[Decimal]] or [Optional[int]]. *)
Definition truthy_dec (x : option Z) : bool :=
  match x with
  | Some v => negb (v =? 0)
  | None => false
  end.

(** [d.get(key) if d else None]. *)
Definition get_if (d : option dict) (key : string) : option string :=
  if truthy_dict d then d ≫= (λ m, m !! key) else None.

(** *** [str.lower()]

    On a string of ASCII characters Python's [str.lower()] moves [A]..[Z]
    to [a]..[z] and keeps every other character ([fold_ascii]).  On any
    other string the result is decided by the Unicode case tables, which
    are not part of the repository: there [lower] hands the string to its
    first argument, [unicode_lower], and every definition and theorem that
    reads [lower] takes that function as a parameter. *)

Definition lower_ascii (a : ascii) : ascii :=
  let n := Ascii.N_of_ascii a in
  if ((65 <=? n) && (n <=? 90))%N then Ascii.ascii_of_N (n + 32) else a.

Fixpoint fold_ascii (s : string) : string :=
  match s with
  | EmptyString => EmptyString
  | String a rest => String (lower_ascii a) (fold_ascii rest)
  end.

(** Every character of the string is below 128. *)
Fixpoint is_ascii (s : string) : bool :=
  match s with
  | EmptyString => true
  | String a rest => (Ascii.N_of_ascii a <? 128)%N && is_ascii rest
  end.

Definition lower (unicode_lower : string → string) (s : string) : string :=
  if is_ascii s then fold_ascii s else unicode_lower s.



(** ** [app/db/models/payment.py] *)

Module Payment.

Inductive PaymentStatus : Type :=
| INITIATED | PENDING | SUCCESS | FAILED | CANCELLED
| REFUNDED | PARTIALLY_REFUNDED.

Inductive PaymentProvider : Type :=
| LOCAL | RAZORPAY | STRIPE.

#[global] Instance status_eq_dec : EqDecision PaymentStatus.
Proof. solve_decision. Defined.

#[global] Instance provider_eq_dec : EqDecision PaymentProvider.
Proof. solve_decision. Defined.

Record t : Type := mk {
  registration_id : option UUID;
  amount : Decimal;
  status : PaymentStatus;
  provider : PaymentProvider;
  provider_payment_id : option string;
  provider_payload : option dict;
  notes : option string;
  refund_amount : option Decimal;
  refund_reason : option string;
  refund_id : option string;
  webhook_processed : bool
}.

Definition set_status (v : PaymentStatus) (p : t) : t :=
  mk (registration_id p) (amount p) v (provider p) (provider_payment_id p)
     (provider_payload p) (notes p) (refund_amount p) (refund_reason p)
     (refund_id p) (webhook_processed p).

Definition set_provider_payment_id (v : option string) (p : t) : t :=
  mk (registration_id p) (amount p) (status p) (provider p) v
     (provider_payload p) (notes p) (refund_amount p) (refund_reason p)
     (refund_id p) (webhook_processed p).

Definition set_provider_payload (v : option dict) (p : t) : t :=
  mk (registration_id p) (amount p) (status p) (provider p)
     (provider_payment_id p) v (notes p) (refund_amount p) (refund_reason p)
     (refund_id p) (webhook_processed p).

Definition set_notes (v : option string) (p : t) : t :=
  mk (registration_id p) (amount p) (status p) (provider p)
     (provider_payment_id p) (provider_payload p) v (refund_amount p)
     (refund_reason p) (refund_id p) (webhook_processed p).

Definition set_refund_amount (v : option Decimal) (p : t) : t :=
  mk (registration_id p) (amount p) (status p) (provider p)
     (provider_payment_id p) (provider_payload p) (notes p) v
     (refund_reason p) (refund_id p) (webhook_processed p).

Definition set_refund_reason (v : option string) (p : t) : t :=
  mk (registration_id p) (amount p) (status p) (provider p)
     (provider_payment_id p) (provider_payload p) (notes p)
     (refund_amount p) v (refund_id p) (webhook_processed p).

Definition set_refund_id (v : option string) (p : t) : t :=
  mk (registration_id p) (amount p) (status p) (provider p)
     (provider_payment_id p) (provider_payload p) (notes p)
     (refund_amount p) (refund_reason p) v (webhook_processed p).

Definition set_webhook_processed (v : bool) (p : t) : t :=
  mk (registration_id p) (amount p) (status p) (provider p)
     (provider_payment_id p) (provider_payload p) (notes p)
     (refund_amount p) (refund_reason p) (refund_id p) v.

(** [if cond: self.field = value] *)
Definition when (cond : bool) (f : t -> t) (p : t) : t :=
  if cond then f p else p.

Definition is_successful (p : t) : bool :=
  bool_decide (status p = SUCCESS).

Definition is_failed (p : t) : bool :=
  bool_decide (status p = FAILED).

Definition is_pending (p : t) : bool :=
  bool_decide (status p ∈ [INITIATED; PENDING]).

Definition is_cancelled (p : t) : bool :=
  bool_decide (status p = CANCELLED).

Definition is_refunded (p : t) : bool :=
  bool_decide (status p ∈ [REFUNDED; PARTIALLY_REFUNDED]).

Definition can_be_refunded (p : t) : bool :=
  is_successful p && negb (is_refunded p).

Definition refund_amount_remaining (p : t) : Decimal :=
  if negb (is_successful p) then 0
  else match refund_amount p with
       | None => amount p
       | Some r => amount p - r
       end.

Definition mark_successful
    (provider_payment_id : option string) (provider_data : option dict)
    (p : t) : outcome t :=
  let p := set_status SUCCESS p in
  let p := when (truthy_str provider_payment_id)
                (set_provider_payment_id provider_payment_id) p in
  let p := when (truthy_dict provider_data)
                (set_provider_payload provider_data) p in
  Returned (set_webhook_processed true p).

Definition mark_failed
    (reason : option string) (provider_data : option dict)
    (p : t) : outcome t :=
  let p := set_status FAILED p in
  let p := when (truthy_str reason)
                (set_notes (String.append "Payment failed: " <$> reason)) p in
  let p := when (truthy_dict provider_data)
                (set_provider_payload provider_data) p in
  Returned (set_webhook_processed true p).

Definition mark_cancelled (reason : option string) (p : t) : outcome t :=
  let p := set_status CANCELLED p in
  Returned (when (truthy_str reason)
                 (set_notes (String.append "Payment cancelled: " <$> reason)) p).

Definition process_refund
    (refund : Decimal) (reason : option string) (refund_id : option string)
    (p : t) : outcome t :=
  if negb (can_be_refunded p) then
    Raised (ValueError "Payment cannot be refunded")
  else if bool_decide (refund > refund_amount_remaining p) then
    Raised (ValueError "Refund amount exceeds remaining amount")
  else
    let total := match refund_amount p with
                 | None => refund
                 | Some r => r + refund
                 end in
    let p := set_refund_amount (Some total) p in
    let p := if bool_decide (total = amount p)
             then set_status REFUNDED p
             else set_status PARTIALLY_REFUNDED p in
    let p := when (truthy_str reason) (set_refund_reason reason) p in
    Returned (when (truthy_str refund_id) (set_refund_id refund_id) p).

(** *** Further properties and methods of [Payment] *)

Definition is_completed (p : t) : bool :=
  bool_decide (status p ∈ [SUCCESS; REFUNDED; PARTIALLY_REFUNDED]).

Definition is_partial_refund (p : t) : bool :=
  bool_decide (status p = PARTIALLY_REFUNDED)
  || match refund_amount p with
     | Some r => bool_decide (r < amount p)
     | None => false
     end.

Definition is_full_refund (p : t) : bool :=
  bool_decide (status p = REFUNDED)
  || match refund_amount p with
     | Some r => bool_decide (r = amount p)
     | None => false
     end.

(** [default] is the second argument of [dict.get]. *)
Definition get_provider_data
    (key : string) (default : option string) (p : t) : option string :=
  if negb (truthy_dict (provider_payload p)) then default
  else match provider_payload p ≫= (λ m, m !! key) with
       | Some v => Some v
       | None => default
       end.

Definition set_provider_data (key value : string) (p : t) : outcome t :=
  let p := when (negb (truthy_dict (provider_payload p)))
                (set_provider_payload (Some ∅)) p in
  Returned
    (set_provider_payload
       (Some (<[key := value]> (default ∅ (provider_payload p)))) p).

End Payment.

(** ** [app/db/models/registration.py] *)

Module Registration.

Inductive RegistrationStatus : Type :=
| PENDING | CONFIRMED | CANCELLED | PAID | REJECTED.

#[global] Instance status_eq_dec : EqDecision RegistrationStatus.
Proof. solve_decision. Defined.

(** The string each member of the [str] enumeration stands for. *)
Definition value (s : RegistrationStatus) : string :=
  match s with
  | PENDING => "pending"
  | CONFIRMED => "confirmed"
  | CANCELLED => "cancelled"
  | PAID => "paid"
  | REJECTED => "rejected"
  end.

Record t : Type := mk {
  id : UUID;
  student_id : UUID;
  sport_category_id : UUID;
  status : RegistrationStatus;
  payment_id : option UUID;
  notes : option string;
  confirmed_at : option datetime;
  cancelled_at : option datetime
}.

Definition set_status (v : RegistrationStatus) (r : t) : t :=
  mk (id r) (student_id r) (sport_category_id r) v (payment_id r) (notes r)
     (confirmed_at r) (cancelled_at r).

Definition set_notes (v : option string) (r : t) : t :=
  mk (id r) (student_id r) (sport_category_id r) (status r) (payment_id r) v
     (confirmed_at r) (cancelled_at r).

Definition set_confirmed_at (v : option datetime) (r : t) : t :=
  mk (id r) (student_id r) (sport_category_id r) (status r) (payment_id r)
     (notes r) v (cancelled_at r).

Definition set_cancelled_at (v : option datetime) (r : t) : t :=
  mk (id r) (student_id r) (sport_category_id r) (status r) (payment_id r)
     (notes r) (confirmed_at r) v.

Definition is_pending (r : t) : bool := bool_decide (status r = PENDING).
Definition is_confirmed (r : t) : bool := bool_decide (status r = CONFIRMED).
Definition is_paid (r : t) : bool := bool_decide (status r = PAID).
Definition is_cancelled (r : t) : bool := bool_decide (status r = CANCELLED).
Definition is_rejected (r : t) : bool := bool_decide (status r = REJECTED).

Definition is_active (r : t) : bool :=
  bool_decide (status r ∈ [CONFIRMED; PAID]).

Definition can_be_cancelled (r : t) : bool :=
  bool_decide (status r ∈ [PENDING; CONFIRMED]).

(** [now] is the value of [datetime.utcnow()] at the call. *)
Definition confirm (now : datetime) (r : t) : outcome t :=
  if bool_decide (status r = PENDING)
  then Returned (set_confirmed_at (Some now) (set_status CONFIRMED r))
  else Returned r.

Definition cancel (now : datetime) (reason : option string) (r : t)
  : outcome t :=
  if can_be_cancelled r then
    let r := set_cancelled_at (Some now) (set_status CANCELLED r) in
    Returned (if truthy_str reason
              then set_notes (String.append "Cancelled: " <$> reason) r
              else r)
  else Returned r.

Definition reject (reason : option string) (r : t) : outcome t :=
  if bool_decide (status r = PENDING) then
    let r := set_status REJECTED r in
    Returned (if truthy_str reason
              then set_notes (String.append "Rejected: " <$> reason) r
              else r)
  else Returned r.

Definition mark_as_paid (r : t) : outcome t :=
  if bool_decide (status r = CONFIRMED)
  then Returned (set_status PAID r)
  else Returned r.

End Registration.

(** ** [app/db/models/sport.py], class [SportCategory] *)

Module SportCategory.

Inductive GenderAllowed : Type :=
| MALE | FEMALE | MIXED | ANY.

Definition value (g : GenderAllowed) : string :=
  match g with
  | MALE => "male"
  | FEMALE => "female"
  | MIXED => "mixed"
  | ANY => "any"
  end.

(** [gender_allowed] is a [String(20)] column and is kept as a string. *)
Record t : Type := mk {
  id : UUID;
  age_from : option Z;
  age_to : option Z;
  gender_allowed : string;
  max_participants : Z;
  fee : Decimal;
  is_active : bool;
  registrations : list Registration.t
}.

Definition set_registrations (v : list Registration.t) (c : t) : t :=
  mk (id c) (age_from c) (age_to c) (gender_allowed c) (max_participants c)
     (fee c) (is_active c) v.

(** [r.status in ["confirmed", "paid"]] *)
Definition counted (r : Registration.t) : bool :=
  bool_decide (Registration.value (Registration.status r)
               ∈ ["confirmed"; "paid"]).

Definition current_registrations (c : t) : Z :=
  Z.of_nat (List.length (filter (λ r, counted r = true) (registrations c))).

Definition available_spots (c : t) : Z :=
  Z.max 0 (max_participants c - current_registrations c).

Definition is_full (c : t) : bool :=
  available_spots c =? 0.

Definition is_age_eligible (c : t) (age : Z) : bool :=
  if truthy_dec (age_from c) && bool_decide (age < default 0 (age_from c))
  then false
  else if truthy_dec (age_to c) && bool_decide (age > default 0 (age_to c))
  then false
  else true.

(** [unicode_lower] is [str.lower()] on strings that are not ASCII, see
    [lower]. *)
Definition is_gender_eligible
    (unicode_lower : string → string) (c : t) (gender : string) : bool :=
  if String.eqb (gender_allowed c) (value ANY) then true
  else String.eqb (lower unicode_lower gender)
         (lower unicode_lower (gender_allowed c)).

Definition can_register
    (unicode_lower : string → string) (c : t) (age : Z) (gender : string)
  : bool :=
  is_active c && negb (is_full c) && is_age_eligible c age
  && is_gender_eligible unicode_lower c gender.

End SportCategory.

(** ** [app/db/models/sponsorship.py] *)

Module Sponsorship.

Inductive SponsorshipStatus : Type :=
| APPLIED | UNDER_REVIEW | APPROVED | REJECTED | CANCELLED | EXPIRED.

#[global] Instance status_eq_dec : EqDecision SponsorshipStatus.
Proof. solve_decision. Defined.

Definition value (s : SponsorshipStatus) : string :=
  match s with
  | APPLIED => "applied"
  | UNDER_REVIEW => "under_review"
  | APPROVED => "approved"
  | REJECTED => "rejected"
  | CANCELLED => "cancelled"
  | EXPIRED => "expired"
  end.

Record t : Type := mk {
  requested_amount : Decimal;
  approved_amount : option Decimal;
  status : SponsorshipStatus;
  reviewed_by : option string;
  review_notes : option string;
  rejection_reason : option string
}.

Definition set_approved_amount (v : option Decimal) (s : t) : t :=
  mk (requested_amount s) v (status s) (reviewed_by s) (review_notes s)
     (rejection_reason s).

Definition set_status (v : SponsorshipStatus) (s : t) : t :=
  mk (requested_amount s) (approved_amount s) v (reviewed_by s)
     (review_notes s) (rejection_reason s).

Definition set_reviewed_by (v : option string) (s : t) : t :=
  mk (requested_amount s) (approved_amount s) (status s) v (review_notes s)
     (rejection_reason s).

Definition set_review_notes (v : option string) (s : t) : t :=
  mk (requested_amount s) (approved_amount s) (status s) (reviewed_by s) v
     (rejection_reason s).

Definition set_rejection_reason (v : option string) (s : t) : t :=
  mk (requested_amount s) (approved_amount s) (status s) (reviewed_by s)
     (review_notes s) v.

Definition when (cond : bool) (f : t -> t) (s : t) : t :=
  if cond then f s else s.

Definition can_be_approved (s : t) : bool :=
  bool_decide (status s ∈ [APPLIED; UNDER_REVIEW]).

Definition can_be_rejected (s : t) : bool :=
  bool_decide (status s ∈ [APPLIED; UNDER_REVIEW]).

Definition can_be_cancelled (s : t) : bool :=
  bool_decide (status s ∈ [APPLIED; UNDER_REVIEW; APPROVED]).

Definition final_amount (s : t) : Decimal :=
  match approved_amount s with
  | Some a => a
  | None => requested_amount s
  end.

Definition approve
    (approved : option Decimal) (reviewer notes : option string) (s : t)
  : outcome t :=
  if negb (can_be_approved s) then
    Raised (ValueError "Sponsorship cannot be approved")
  else
    let s := set_status APPROVED s in
    let s := when (bool_decide (approved ≠ None))
                  (set_approved_amount approved) s in
    let s := when (truthy_str reviewer) (set_reviewed_by reviewer) s in
    Returned (when (truthy_str notes) (set_review_notes notes) s).

Definition reject (reason : string) (reviewer : option string) (s : t)
  : outcome t :=
  if negb (can_be_rejected s) then
    Raised (ValueError "Sponsorship cannot be rejected")
  else
    let s := set_rejection_reason (Some reason) (set_status REJECTED s) in
    Returned (when (truthy_str reviewer) (set_reviewed_by reviewer) s).

Definition cancel (reason : option string) (s : t) : outcome t :=
  if negb (can_be_cancelled s) then
    Raised (ValueError "Sponsorship cannot be cancelled")
  else
    let s := set_status CANCELLED s in
    Returned (when (truthy_str reason)
                   (set_review_notes (String.append "Cancelled: " <$> reason))
                   s).

Definition mark_under_review (reviewer : option string) (s : t) : outcome t :=
  if bool_decide (status s ≠ APPLIED) then
    Raised (ValueError "Only applied sponsorships can be marked as under review")
  else
    let s := set_status UNDER_REVIEW s in
    Returned (when (truthy_str reviewer) (set_reviewed_by reviewer) s).

End Sponsorship.

(** ** [app/services/payment_service.py]

    The repository is the payments table, a finite map from the primary
    key to the row; [commit] writes the mutated object back. *)

Module PaymentService.

Definition create_payment
    (id : UUID) (amount : Decimal) (provider : Payment.PaymentProvider)
    (registration_id : option UUID) (metadata : option dict)
    (payments : gmap UUID Payment.t)
  : outcome (gmap UUID Payment.t * Payment.t) :=
  let payment :=
    Payment.mk registration_id amount Payment.INITIATED provider None
      (Some (if truthy_dict metadata then default ∅ metadata else ∅))
      None None None None false in
  let processed :=
    match provider with
    | Payment.LOCAL => Returned payment
    | Payment.RAZORPAY =>
        Payment.mark_successful (Some "razorpay_payment_123")
          (Some {[ "razorpay_order_id" := "order_123" ]}) payment
    | Payment.STRIPE =>
        Payment.mark_successful (Some "stripe_payment_123")
          (Some {[ "stripe_payment_intent_id" := "pi_123" ]}) payment
    end in
  match processed with
  | Returned payment => Returned (<[id := payment]> payments, payment)
  | Raised e => Raised e
  end.

Definition update_payment_status
    (payment_id : UUID) (status : Payment.PaymentStatus)
    (provider_data : option dict) (payments : gmap UUID Payment.t)
  : outcome (gmap UUID Payment.t * bool) :=
  match payments !! payment_id with
  | None => Returned (payments, false)
  | Some payment =>
      let marked :=
        match status with
        | Payment.SUCCESS =>
            Payment.mark_successful (get_if provider_data "payment_id")
              provider_data payment
        | Payment.FAILED =>
            Payment.mark_failed (get_if provider_data "error_message")
              provider_data payment
        | Payment.CANCELLED =>
            Payment.mark_cancelled (get_if provider_data "reason") payment
        | _ => Returned payment
        end in
      match marked with
      | Returned payment => Returned (<[payment_id := payment]> payments, true)
      | Raised e => Raised e
      end
  end.

Definition process_refund
    (payment_id : UUID) (refund_amount : option Decimal)
    (reason : option string) (payments : gmap UUID Payment.t)
  : outcome (gmap UUID Payment.t * bool) :=
  match payments !! payment_id with
  | None => Returned (payments, false)
  | Some payment =>
      if negb (Payment.can_be_refunded payment) then Returned (payments, false)
      else
        let refund_amount :=
          if truthy_dec refund_amount then default 0 refund_amount
          else Payment.amount payment in
        match Payment.process_refund refund_amount reason None payment with
        | Returned payment =>
            Returned (<[payment_id := payment]> payments, true)
        | Raised e => Raised e
        end
  end.

End PaymentService.

(** ** Calls on the objects of a session

    The transition methods of each model as data, so that sequences of
    calls can be run.  A call that raises leaves the object as it was. *)

(** *** Registrations *)

Inductive RegistrationCall : Type :=
| RConfirm (now : datetime)
| RCancel (now : datetime) (reason : option string)
| RReject (reason : option string)
| RMarkAsPaid.

Definition invoke_registration (m : RegistrationCall) (r : Registration.t)
  : outcome Registration.t :=
  match m with
  | RConfirm now => Registration.confirm now r
  | RCancel now reason => Registration.cancel now reason r
  | RReject reason => Registration.reject reason r
  | RMarkAsPaid => Registration.mark_as_paid r
  end.

Definition is_confirm (m : RegistrationCall) : bool :=
  match m with
  | RConfirm _ => true
  | _ => false
  end.

(** The guard each registration method tests before it assigns: the
    states from which the call is a transition (those §4.2 calls valid). *)
Definition allowed_from
    (m : RegistrationCall) (s : Registration.RegistrationStatus) : bool :=
  match m with
  | RConfirm _ => bool_decide (s = Registration.PENDING)
  | RCancel _ _ =>
      bool_decide (s ∈ [Registration.PENDING; Registration.CONFIRMED])
  | RReject _ => bool_decide (s = Registration.PENDING)
  | RMarkAsPaid => bool_decide (s = Registration.CONFIRMED)
  end.

(** The status each registration method leaves, read off its body. *)
Definition next_status
    (m : RegistrationCall) (s : Registration.RegistrationStatus)
  : Registration.RegistrationStatus :=
  match m with
  | RConfirm _ =>
      if bool_decide (s = Registration.PENDING) then Registration.CONFIRMED
      else s
  | RCancel _ _ =>
      if bool_decide (s ∈ [Registration.PENDING; Registration.CONFIRMED])
      then Registration.CANCELLED else s
  | RReject _ =>
      if bool_decide (s = Registration.PENDING) then Registration.REJECTED
      else s
  | RMarkAsPaid =>
      if bool_decide (s = Registration.CONFIRMED) then Registration.PAID
      else s
  end.

(** *** Payments *)

Inductive PaymentCall : Type :=
| PMarkSuccessful (provider_payment_id : option string) (data : option dict)
| PMarkFailed (reason : option string) (data : option dict)
| PMarkCancelled (reason : option string)
| PProcessRefund (refund : Decimal) (reason refund_id : option string).

Definition invoke_payment (m : PaymentCall) (p : Payment.t)
  : outcome Payment.t :=
  match m with
  | PMarkSuccessful pid data => Payment.mark_successful pid data p
  | PMarkFailed reason data => Payment.mark_failed reason data p
  | PMarkCancelled reason => Payment.mark_cancelled reason p
  | PProcessRefund refund reason rid =>
      Payment.process_refund refund reason rid p
  end.

(** The payment after a sequence of calls, first call first. *)
Definition run_payment (ms : list PaymentCall) (p : Payment.t) : Payment.t :=
  fold_left (λ p m, settle p (invoke_payment m p)) ms p.

(** The amount refunded so far, nothing when [refund_amount] is [None]. *)
Definition refunded (p : Payment.t) : Decimal :=
  default 0 (Payment.refund_amount p).

(** [refund_amount], once set, is at most [amount]. *)
Definition refund_bounded (p : Payment.t) : Prop :=
  ∀ r, Payment.refund_amount p = Some r → r <= Payment.amount p.

Definition refund_requests_nonneg (ms : list PaymentCall) : Prop :=
  Forall (λ m, match m with
               | PProcessRefund refund _ _ => 0 <= refund
               | _ => True
               end) ms.

(** The two errors of [Payment.process_refund]. *)
Definition cannot_be_refunded : exn := ValueError "Payment cannot be refunded".
Definition exceeds_remaining : exn :=
  ValueError "Refund amount exceeds remaining amount".

(** The status a refund leaves: [refunded] exactly when the total reaches
    the amount. *)
Definition status_after_refund (total amount : Decimal)
  : Payment.PaymentStatus :=
  if bool_decide (total = amount) then Payment.REFUNDED
  else Payment.PARTIALLY_REFUNDED.

(** The table a service call leaves: the committed one when it returned,
    the one before the call when it raised. *)
Definition committed {X : Type}
    (before : gmap UUID Payment.t) (o : outcome (gmap UUID Payment.t * X))
  : gmap UUID Payment.t :=
  match o with
  | Returned (after, _) => after
  | Raised _ => before
  end.

(** *** Sponsorships *)

Inductive SponsorshipCall : Type :=
| SMarkUnderReview (reviewer : option string)
| SApprove (approved : option Decimal) (reviewer notes : option string)
| SReject (reason : string) (reviewer : option string)
| SCancel (reason : option string).

Definition invoke_sponsorship (m : SponsorshipCall) (s : Sponsorship.t)
  : outcome Sponsorship.t :=
  match m with
  | SMarkUnderReview reviewer => Sponsorship.mark_under_review reviewer s
  | SApprove approved reviewer notes =>
      Sponsorship.approve approved reviewer notes s
  | SReject reason reviewer => Sponsorship.reject reason reviewer s
  | SCancel reason => Sponsorship.cancel reason s
  end.

(** The status each sponsorship call assigns when it goes through. *)
Definition attempted (m : SponsorshipCall) : Sponsorship.SponsorshipStatus :=
  match m with
  | SMarkUnderReview _ => Sponsorship.UNDER_REVIEW
  | SApprove _ _ _ => Sponsorship.APPROVED
  | SReject _ _ => Sponsorship.REJECTED
  | SCancel _ => Sponsorship.CANCELLED
  end.

(** The message of the [ValueError] each sponsorship method raises. *)
Definition refusal (m : SponsorshipCall) : string :=
  match m with
  | SMarkUnderReview _ =>
      "Only applied sponsorships can be marked as under review"
  | SApprove _ _ _ => "Sponsorship cannot be approved"
  | SReject _ _ => "Sponsorship cannot be rejected"
  | SCancel _ => "Sponsorship cannot be cancelled"
  end.

(** The terminal states of §3. *)
Definition terminal (s : Sponsorship.SponsorshipStatus) : bool :=
  bool_decide (s ∈ [Sponsorship.REJECTED; Sponsorship.CANCELLED;
                    Sponsorship.EXPIRED]).

(** [needle in hay] on strings. *)
Fixpoint contains (needle hay : string) : bool :=
  String.prefix needle hay
  || match hay with
     | EmptyString => false
     | String _ rest => contains needle rest
     end.

(** An error names a status when its message contains the status value. *)
Definition names (e : exn) (s : Sponsorship.SponsorshipStatus) : bool :=
  match e with
  | ValueError msg => contains (Sponsorship.value s) msg
  end.

(** *** A category and its registrations

    [Register] adds a new registration object, in the column default
    status [pending], to the relationship list; [Call i m] calls method
    [m] on the [i]-th registration of the list (nothing happens when
    there is none). *)

Definition new_registration
    (id student : UUID) (payment : option UUID) (c : SportCategory.t)
  : Registration.t :=
  Registration.mk id student (SportCategory.id c) Registration.PENDING payment
    None None None.

Inductive CategoryEvent : Type :=
| Register (id student : UUID) (payment : option UUID)
| Call (i : nat) (m : RegistrationCall).

Definition call_registration
    (i : nat) (m : RegistrationCall) (c : SportCategory.t) : SportCategory.t :=
  SportCategory.set_registrations
    (alter (λ r, settle r (invoke_registration m r)) i
       (SportCategory.registrations c)) c.

Definition apply_event (c : SportCategory.t) (e : CategoryEvent)
  : SportCategory.t :=
  match e with
  | Register id student payment =>
      SportCategory.set_registrations
        (SportCategory.registrations c
         ++ [new_registration id student payment c])
        c
  | Call i m => call_registration i m c
  end.

Definition run_category (es : list CategoryEvent) (c : SportCategory.t)
  : SportCategory.t :=
  fold_left apply_event es c.

(** The ceiling of §3: no more confirmed or paid registrations than seats. *)
Definition within_capacity (c : SportCategory.t) : Prop :=
  SportCategory.current_registrations c <= SportCategory.max_participants c.

(** Every [confirm] of the sequence is made while the category is not full. *)
Fixpoint confirms_checked (es : list CategoryEvent) (c : SportCategory.t)
  : Prop :=
  match es with
  | [] => True
  | e :: es' =>
      match e with
      | Call _ (RConfirm _) => SportCategory.is_full c = false
      | _ => True
      end
      ∧ confirms_checked es' (apply_event c e)
  end.

(** [seats l] is the number [current_registrations] takes the length of;
    [occupies s] is what a registration in status [s] adds to it. *)
Definition seats (l : list Registration.t) : nat :=
  List.length (filter (λ r, SportCategory.counted r = true) l).

Definition occupies (s : Registration.RegistrationStatus) : nat :=
  if bool_decide (Registration.value s ∈ ["confirmed"; "paid"]) then 1%nat
  else 0%nat.

(** *** The tables a request works on: one category with its
    registrations, and the payments table of [PaymentService]. *)

Record World : Type := mkWorld {
  category : SportCategory.t;
  payments : gmap UUID Payment.t
}.

(** [PaymentService.update_payment_status] reads and writes the payments
    table only. *)
Definition update_payment_status
    (payment_id : UUID) (status : Payment.PaymentStatus)
    (provider_data : option dict) (w : World) : outcome (World * bool) :=
  match PaymentService.update_payment_status payment_id status provider_data
          (payments w) with
  | Returned (payments', ok) => Returned (mkWorld (category w) payments', ok)
  | Raised e => Raised e
  end.

(** [cancel] called on the [i]-th registration of the world's category. *)
Definition cancel_registration
    (i : nat) (now : datetime) (reason : option string) (w : World) : World :=
  mkWorld (call_registration i (RCancel now reason) (category w)) (payments w).

Definition registration_status (w : World) (i : nat)
  : option Registration.RegistrationStatus :=
  Registration.status <$> SportCategory.registrations (category w) !! i.

(** The payment a registration refers to through [payment_id]. *)
Definition payment_of (w : World) (r : Registration.t) : option Payment.t :=
  Registration.payment_id r ≫= (λ pid, payments w !! pid).

(** ** Concrete objects used by the examples below *)

(** A successful payment of 100.00 for registration 1, nothing refunded. *)
Definition paid_100 : Payment.t :=
  Payment.mk (Some 1%positive) 10000 Payment.SUCCESS Payment.LOCAL None
    (Some ∅) None None None None false.

(** [paid_100] after a refund of 40.00. *)
Definition refunded_40 : Payment.t :=
  settle paid_100 (Payment.process_refund 4000 None None paid_100).

(** [paid_100] with 40.00 refunded, marked successful once more. *)
Definition success_again_40 : Payment.t :=
  run_payment [PProcessRefund 4000 None None; PMarkSuccessful None None]
    paid_100.

(** Payment 7 of 100.00: created, reported successful, refunded 40.00 and
    reported successful a second time, all through [PaymentService]. *)
Definition table_created : gmap UUID Payment.t :=
  committed ∅
    (PaymentService.create_payment 7%positive 10000 Payment.LOCAL
       (Some 1%positive) None ∅).

Definition table_success : gmap UUID Payment.t :=
  committed table_created
    (PaymentService.update_payment_status 7%positive Payment.SUCCESS None
       table_created).

Definition table_refunded_40 : gmap UUID Payment.t :=
  committed table_success
    (PaymentService.process_refund 7%positive (Some 4000) None table_success).

Definition table_success_again : gmap UUID Payment.t :=
  committed table_refunded_40
    (PaymentService.update_payment_status 7%positive Payment.SUCCESS None
       table_refunded_40).

(** Registration 1, confirmed, of student 5 in category 3; its payment 7
    has not gone through.  [paid_reg] is the same registration once paid. *)
Definition confirmed_reg : Registration.t :=
  Registration.mk 1%positive 5%positive 3%positive Registration.CONFIRMED
    (Some 7%positive) None (Some 0) None.

Definition paid_reg : Registration.t :=
  Registration.set_status Registration.PAID confirmed_reg.

(** Payment 7 of 100.00 for registration 1, just created. *)
Definition initiated_100 : Payment.t :=
  Payment.mk (Some 1%positive) 10000 Payment.INITIATED Payment.LOCAL None
    (Some ∅) None None None None false.

(** Category 3 with room for one participant and no registration yet. *)
Definition one_seat : SportCategory.t :=
  SportCategory.mk 3%positive None None "any" 1 10000 true [].

(** [one_seat] with its seat taken by a confirmed registration. *)
Definition full_house : SportCategory.t :=
  run_category [Register 1%positive 5%positive None; Call 0 (RConfirm 1)]
    one_seat.

(** [one_seat] after two students registered and both were confirmed. *)
Definition overbooked : SportCategory.t :=
  run_category
    [Register 1%positive 5%positive None; Register 2%positive 6%positive None;
     Call 0 (RConfirm 1); Call 1 (RConfirm 2)]
    one_seat.

(** [confirmed_reg] in its category, its payment still [initiated]. *)
Definition awaiting_payment : World :=
  mkWorld (SportCategory.set_registrations [confirmed_reg] one_seat)
    {[ 7%positive := initiated_100 ]}.

(** [awaiting_payment] once payment 7 has been reported failed. *)
Definition after_failure : World :=
  match update_payment_status 7%positive Payment.FAILED
          (Some {[ "error_message" := "card declined" ]}) awaiting_payment with
  | Returned (w', _) => w'
  | Raised _ => awaiting_payment
  end.

(** A sponsorship application for 50000.00, and the same once rejected. *)
Definition applied_50000 : Sponsorship.t :=
  Sponsorship.mk 5000000 None Sponsorship.APPLIED None None None.

Definition rejected_50000 : Sponsorship.t :=
  settle applied_50000
    (Sponsorship.reject "Budget exhausted" (Some "admin@example.org")
       applied_50000).


(** ** [app/db/models/sport.py], class [Sport] *)

Module Sport.

Record t : Type := mk {
  name : string;
  slug : string;
  is_active : bool;
  categories : list SportCategory.t
}.

Definition total_categories (s : t) : Z :=
  Z.of_nat (List.length (categories s)).

Definition active_categories (s : t) : Z :=
  Z.of_nat
    (List.length (filter (λ c, SportCategory.is_active c = true) (categories s))).

(** [sum(c.max_participants for c in self.categories if c.is_active)] *)
Definition total_capacity (s : t) : Z :=
  fold_left (λ acc c, acc + SportCategory.max_participants c)
    (filter (λ c, SportCategory.is_active c = true) (categories s)) 0.

(** The loop [for category in self.categories: if category.is_active:
    total += len([...])]. *)
Definition current_registrations (s : t) : Z :=
  fold_left
    (λ total category,
       if SportCategory.is_active category
       then total
            + Z.of_nat
                (List.length
                   (filter (λ r, SportCategory.counted r = true)
                      (SportCategory.registrations category)))
       else total)
    (categories s) 0.

End Sport.

(** ** The JSON columns of [Registration] and [Sponsorship]

    [registration_data], [terms_and_conditions] and [documents] are read
    and written by methods that touch no other column; each method is a
    function of the column.  A [documents] dictionary holds a list under
    ["urls"], a dictionary under ["types"] (as [add_document_url] writes
    them) and strings under any other key. *)

Module Columns.

(** [Registration.get_registration_data] *)
Definition get_registration_data
    (key : string) (default : option string) (registration_data : option dict)
  : option string :=
  if negb (truthy_dict registration_data) then default
  else match registration_data ≫= (λ m, m !! key) with
       | Some v => Some v
       | None => default
       end.

(** [Registration.set_registration_data]: the column after the call. *)
Definition set_registration_data
    (key value : string) (registration_data : option dict) : option dict :=
  let registration_data :=
    if negb (truthy_dict registration_data) then Some ∅
    else registration_data in
  Some (<[key := value]> (default ∅ registration_data)).

(** [Sponsorship.get_terms] *)
Definition get_terms
    (key : string) (default : option string)
    (terms_and_conditions : option dict) : option string :=
  if negb (truthy_dict terms_and_conditions) then default
  else match terms_and_conditions ≫= (λ m, m !! key) with
       | Some v => Some v
       | None => default
       end.

(** [Sponsorship.set_terms]: the column after the call. *)
Definition set_terms
    (key value : string) (terms_and_conditions : option dict) : option dict :=
  let terms_and_conditions :=
    if negb (truthy_dict terms_and_conditions) then Some ∅
    else terms_and_conditions in
  Some (<[key := value]> (default ∅ terms_and_conditions)).

Record Documents : Type := mkDocuments {
  urls : option (list string);
  types : option dict;
  others : dict
}.

(** [if self.documents:] a dictionary is true when it has a key. *)
Definition truthy_documents (d : option Documents) : bool :=
  match d with
  | Some doc =>
      bool_decide (is_Some (urls doc)) || bool_decide (is_Some (types doc))
      || negb (bool_decide (others doc = ∅))
  | None => false
  end.

(** [get_document_urls] of [Registration] and of [Sponsorship]. *)
Definition get_document_urls (documents : option Documents) : list string :=
  if negb (truthy_documents documents) then []
  else default [] (documents ≫= urls).

(** [add_document_url] of [Registration] and of [Sponsorship]: the column
    after the call. *)
Definition add_document_url
    (url doc_type : string) (documents : option Documents)
  : option Documents :=
  let doc :=
    if negb (truthy_documents documents) then mkDocuments (Some []) (Some ∅) ∅
    else default (mkDocuments (Some []) (Some ∅) ∅) documents in
  let doc :=
    if bool_decide (urls doc = None)
    then mkDocuments (Some []) (types doc) (others doc) else doc in
  let doc :=
    if bool_decide (types doc = None)
    then mkDocuments (urls doc) (Some ∅) (others doc) else doc in
  let doc :=
    mkDocuments (Some (default [] (urls doc) ++ [url])) (types doc)
      (others doc) in
  Some (mkDocuments (urls doc)
          (Some (<[url := doc_type]> (default ∅ (types doc)))) (others doc)).

End Columns.

(** ** [app/api/v1/sponsorships.py]: the [reject] endpoint

    The handler after authentication: the sponsorships table before the
    request, the table and the response after it.  [Unhandled] is an
    exception of the model that the handler lets through. *)

Module SponsorshipApi.

Inductive response : Type :=
| BaseResponse (success : bool) (message : string)
| HTTPException (status_code : Z) (detail : string)
| Unhandled (e : exn).

Definition reject_sponsorship
    (sponsorship_id : UUID) (reason : string) (current_user_email : string)
    (sponsorships : gmap UUID Sponsorship.t)
  : gmap UUID Sponsorship.t * response :=
  match sponsorships !! sponsorship_id with
  | None => (sponsorships, HTTPException 404 "Sponsorship not found")
  | Some sponsorship =>
      if negb (Sponsorship.can_be_rejected sponsorship) then
        (sponsorships, HTTPException 400 "Sponsorship cannot be rejected")
      else
        match Sponsorship.reject reason (Some current_user_email)
                sponsorship with
        | Returned sponsorship =>
            (<[sponsorship_id := sponsorship]> sponsorships,
             BaseResponse true "Sponsorship rejected successfully")
        | Raised e => (sponsorships, Unhandled e)
        end
  end.

End SponsorshipApi.

(** ** Sequences of calls on a registration and on a sponsorship *)

Definition run_registration (ms : list RegistrationCall) (r : Registration.t)
  : Registration.t :=
  fold_left (λ r m, settle r (invoke_registration m r)) ms r.

Definition run_sponsorship (ms : list SponsorshipCall) (s : Sponsorship.t)
  : Sponsorship.t :=
  fold_left (λ s m, settle s (invoke_sponsorship m s)) ms s.

(** The timestamps that go with a status: [confirmed_at] is set on a
    confirmed or paid registration, [cancelled_at] on a cancelled one. *)
Definition stamped (r : Registration.t) : Prop :=
  (Registration.status r ∈ [Registration.CONFIRMED; Registration.PAID] →
   is_Some (Registration.confirmed_at r))
  ∧ (Registration.status r = Registration.CANCELLED →
     is_Some (Registration.cancelled_at r)).

(** The statuses from which each sponsorship method assigns. *)
Definition accepts
    (m : SponsorshipCall) (s : Sponsorship.SponsorshipStatus) : bool :=
  match m with
  | SMarkUnderReview _ => bool_decide (s = Sponsorship.APPLIED)
  | SApprove _ _ _ | SReject _ _ =>
      bool_decide (s ∈ [Sponsorship.APPLIED; Sponsorship.UNDER_REVIEW])
  | SCancel _ =>
      bool_decide (s ∈ [Sponsorship.APPLIED; Sponsorship.UNDER_REVIEW;
                        Sponsorship.APPROVED])
  end.

(** A sport with an inactive category that holds confirmed registrations. *)
Definition two_category_sport : Sport.t :=
  Sport.mk "Tennis" "tennis" true
    [full_house;
     SportCategory.mk 8%positive None None "any" 4 0 false
       [confirmed_reg; paid_reg]].

(** A sport whose only category is [overbooked]. *)
Definition overbooked_sport : Sport.t :=
  Sport.mk "Chess" "chess" true [overbooked].

(** The sum of [f] over the active categories of a list. *)
Definition sum_active (f : SportCategory.t → Z) (l : list SportCategory.t) : Z :=
  foldr (λ c acc, f c + acc) 0 (filter (λ c, SportCategory.is_active c = true) l).

(** * Properties *)

(** ** Payments: refunds *)

Lemma can_be_refunded_iff (p : Payment.t) :
  Payment.can_be_refunded p = true ↔ Payment.status p = Payment.SUCCESS.
Proof.
  unfold Payment.can_be_refunded, Payment.is_successful, Payment.is_refunded.
  destruct (Payment.status p); vm_compute; split; congruence.
Qed.

Lemma can_be_refunded_success (p : Payment.t) :
  Payment.status p = Payment.SUCCESS → Payment.can_be_refunded p = true.
Proof. apply can_be_refunded_iff. Qed.

Lemma can_be_refunded_other (p : Payment.t) :
  Payment.status p ≠ Payment.SUCCESS → Payment.can_be_refunded p = false.
Proof.
  intros H. destruct (Payment.can_be_refunded p) eqn:E; [|done].
  by apply can_be_refunded_iff in E.
Qed.

Lemma remaining_success (p : Payment.t) :
  Payment.status p = Payment.SUCCESS →
  Payment.refund_amount_remaining p = Payment.amount p - refunded p.
Proof.
  intros H.
  unfold Payment.refund_amount_remaining, Payment.is_successful, refunded.
  rewrite H. simpl. destruct (Payment.refund_amount p); simpl; lia.
Qed.

Lemma process_refund_not_success p refund reason rid :
  Payment.status p ≠ Payment.SUCCESS →
  Payment.process_refund refund reason rid p = Raised cannot_be_refunded.
Proof.
  intros H. unfold Payment.process_refund.
  by rewrite (can_be_refunded_other p H).
Qed.

Lemma process_refund_exceeds p refund reason rid :
  Payment.status p = Payment.SUCCESS →
  refund > Payment.amount p - refunded p →
  Payment.process_refund refund reason rid p = Raised exceeds_remaining.
Proof.
  intros H Hgt. unfold Payment.process_refund.
  rewrite (can_be_refunded_success p H), (remaining_success p H). simpl.
  by rewrite bool_decide_eq_true_2.
Qed.

Lemma process_refund_accepts p refund reason rid :
  Payment.status p = Payment.SUCCESS →
  refund <= Payment.amount p - refunded p →
  ∃ p', Payment.process_refund refund reason rid p = Returned p'
        ∧ Payment.refund_amount p' = Some (refunded p + refund)
        ∧ Payment.status p'
          = status_after_refund (refunded p + refund) (Payment.amount p)
        ∧ Payment.amount p' = Payment.amount p.
Proof.
  intros H Hle. unfold Payment.process_refund.
  rewrite (can_be_refunded_success p H), (remaining_success p H). simpl.
  rewrite bool_decide_eq_false_2 by lia.
  eexists. split; [reflexivity|].
  unfold status_after_refund, refunded, Payment.when.
  destruct (Payment.refund_amount p) as [r|]; simpl;
    repeat case_bool_decide; destruct (truthy_str reason), (truthy_str rid);
    simpl; repeat split; try done; try lia; f_equal; lia.
Qed.

(** What a call of [process_refund] that returned says about the payment
    before and after it. *)
Lemma process_refund_returned p refund reason rid p' :
  Payment.process_refund refund reason rid p = Returned p' →
  Payment.status p = Payment.SUCCESS
  ∧ refund <= Payment.amount p - refunded p
  ∧ Payment.refund_amount p' = Some (refunded p + refund)
  ∧ Payment.status p'
    = status_after_refund (refunded p + refund) (Payment.amount p)
  ∧ Payment.amount p' = Payment.amount p.
Proof.
  intros Hret.
  destruct (decide (Payment.status p = Payment.SUCCESS)) as [Hs|Hs];
    [|by rewrite process_refund_not_success in Hret].
  destruct (decide (refund <= Payment.amount p - refunded p)) as [Hle|Hgt];
    [|rewrite process_refund_exceeds in Hret by (done || lia); done].
  destruct (process_refund_accepts p refund reason rid Hs Hle)
    as (q & Hq & Hr & Hst & Ha).
  rewrite Hq in Hret. injection Hret as <-. done.
Qed.

(** C2, as the code has it: on a successful payment of 100.00 with nothing
    refunded, a refund of 40.00 goes through and leaves 40.00 refunded and
    the status [partially_refunded]; the following refund of 30.00 raises
    "Payment cannot be refunded", as does every refund on a payment whose
    status is [partially_refunded]: a refund returns only when the status
    is [success].  On a [success] payment a refund larger than the amount
    not yet refunded raises "Refund amount exceeds remaining amount". *)
Theorem refund_only_while_success
    (p : Payment.t) (reason rid reason' rid' : option string) :
  Payment.amount p = 10000 →
  Payment.status p = Payment.SUCCESS →
  Payment.refund_amount p = None →
  (∃ p1, Payment.process_refund 4000 reason rid p = Returned p1
         ∧ Payment.refund_amount p1 = Some 4000
         ∧ Payment.status p1 = Payment.PARTIALLY_REFUNDED
         ∧ Payment.process_refund 3000 reason' rid' p1
           = Raised cannot_be_refunded)
  ∧ (∀ q refund,
       Payment.status q = Payment.PARTIALLY_REFUNDED →
       Payment.process_refund refund reason rid q = Raised cannot_be_refunded)
  ∧ (∀ q refund q',
       Payment.process_refund refund reason rid q = Returned q' →
       Payment.status q = Payment.SUCCESS)
  ∧ (∀ q refund,
       Payment.status q = Payment.SUCCESS →
       refund > Payment.amount q - refunded q →
       Payment.process_refund refund reason rid q = Raised exceeds_remaining).
Proof.
  intros Ha Hs Hr. repeat split.
  - destruct (process_refund_accepts p 4000 reason rid Hs)
      as (p1 & Hp1 & Hr1 & Hs1 & _).
    { unfold refunded. rewrite Hr, Ha. simpl. lia. }
    unfold refunded in Hr1, Hs1. rewrite Hr in Hr1, Hs1. rewrite Ha in Hs1.
    exists p1. repeat split; try done.
    apply process_refund_not_success. rewrite Hs1. done.
  - intros q refund Hq. apply process_refund_not_success. by rewrite Hq.
  - intros q refund q' Hret.
    by destruct (process_refund_returned _ _ _ _ _ Hret) as (? & _).
  - intros q refund Hq Hgt. by apply process_refund_exceeds.
Qed.

(** C2 at [paid_100], with [refunded_40] for the payment that is
    [partially_refunded] and a request of 110.00 for the excess. *)
Lemma refund_only_while_success_witness :
  (∃ p1, Payment.process_refund 4000 None None paid_100 = Returned p1
         ∧ Payment.refund_amount p1 = Some 4000
         ∧ Payment.status p1 = Payment.PARTIALLY_REFUNDED
         ∧ Payment.process_refund 3000 None None p1
           = Raised cannot_be_refunded)
  ∧ Payment.process_refund 3000 None None refunded_40
    = Raised cannot_be_refunded
  ∧ Payment.status paid_100 = Payment.SUCCESS
  ∧ Payment.process_refund 11000 None None paid_100 = Raised exceeds_remaining.
Proof.
  destruct (refund_only_while_success paid_100 None None None None)
    as (H1 & H2 & H3 & H4); try reflexivity.
  split; [exact H1|]. split; [|split].
  - apply H2. reflexivity.
  - apply (H3 paid_100 4000 refunded_40). reflexivity.
  - apply H4; [reflexivity|vm_compute; reflexivity].
Defined.

(** C2 as stated fails: after the refund of 40.00 the payment is
    [partially_refunded], and the refund of 30.00 is refused. *)
Lemma second_refund_is_refused :
  Payment.status paid_100 = Payment.SUCCESS
  ∧ Payment.amount paid_100 = 10000
  ∧ Payment.process_refund 4000 None None paid_100 = Returned refunded_40
  ∧ Payment.status refunded_40 = Payment.PARTIALLY_REFUNDED
  ∧ Payment.refund_amount refunded_40 = Some 4000
  ∧ raised (Payment.process_refund 3000 None None refunded_40) = true
  ∧ settle refunded_40 (Payment.process_refund 3000 None None refunded_40)
    = refunded_40.
Proof. vm_compute. repeat split. Qed.

(** ** Payments: sequences of calls *)

Lemma invoke_payment_amount (m : PaymentCall) (p : Payment.t) :
  Payment.amount (settle p (invoke_payment m p)) = Payment.amount p.
Proof.
  destruct m as [pid data|reason data|reason|refund reason rid]; simpl.
  - unfold Payment.when. by destruct (truthy_str pid), (truthy_dict data).
  - unfold Payment.when. by destruct (truthy_str reason), (truthy_dict data).
  - unfold Payment.when. by destruct (truthy_str reason).
  - destruct (Payment.process_refund refund reason rid p) as [p'|e] eqn:E;
      [|done].
    by destruct (process_refund_returned _ _ _ _ _ E) as (_ & _ & _ & _ & ?).
Qed.

(** The three [mark_*] methods do not touch [refund_amount]. *)
Lemma invoke_payment_refund_amount (m : PaymentCall) (p : Payment.t) :
  match m with
  | PProcessRefund _ _ _ => True
  | _ => Payment.refund_amount (settle p (invoke_payment m p))
         = Payment.refund_amount p
  end.
Proof.
  destruct m as [pid data|reason data|reason|refund reason rid]; simpl.
  - unfold Payment.when. by destruct (truthy_str pid), (truthy_dict data).
  - unfold Payment.when. by destruct (truthy_str reason), (truthy_dict data).
  - unfold Payment.when. by destruct (truthy_str reason).
  - done.
Qed.

Lemma invoke_payment_bounded (m : PaymentCall) (p : Payment.t) :
  refund_bounded p → refund_bounded (settle p (invoke_payment m p)).
Proof.
  intros Hp r Hr. rewrite invoke_payment_amount.
  pose proof (invoke_payment_refund_amount m p) as Hm.
  destruct m as [pid data|reason data|reason|refund reason rid];
    try (rewrite Hm in Hr; by apply Hp).
  simpl in Hr.
  destruct (Payment.process_refund refund reason rid p) as [p'|e] eqn:E;
    simpl in Hr; [|by apply Hp].
  destruct (process_refund_returned _ _ _ _ _ E) as (_ & Hle & Hr' & _).
  rewrite Hr' in Hr. injection Hr as <-. lia.
Qed.

Lemma invoke_payment_monotone (m : PaymentCall) (p : Payment.t) :
  refund_requests_nonneg [m] →
  refunded p <= refunded (settle p (invoke_payment m p)).
Proof.
  intros Hnn. unfold refund_requests_nonneg in Hnn.
  rewrite Forall_singleton in Hnn.
  pose proof (invoke_payment_refund_amount m p) as Hm.
  destruct m as [pid data|reason data|reason|refund reason rid];
    try (unfold refunded; rewrite Hm; lia).
  simpl.
  destruct (Payment.process_refund refund reason rid p) as [p'|e] eqn:E;
    simpl; [|lia].
  destruct (process_refund_returned _ _ _ _ _ E) as (_ & _ & Hr' & _).
  simpl in Hnn. unfold refunded at 2. rewrite Hr'. simpl. lia.
Qed.

Lemma run_payment_app (ms ms' : list PaymentCall) (p : Payment.t) :
  run_payment (ms ++ ms') p = run_payment ms' (run_payment ms p).
Proof. apply fold_left_app. Qed.

Lemma run_payment_bounded (ms : list PaymentCall) (p : Payment.t) :
  refund_bounded p → refund_bounded (run_payment ms p).
Proof.
  revert p. induction ms as [|m ms IH]; intros p Hp; [done|].
  apply IH. by apply invoke_payment_bounded.
Qed.

Lemma run_payment_monotone (ms : list PaymentCall) (p : Payment.t) :
  refund_requests_nonneg ms → refunded p <= refunded (run_payment ms p).
Proof.
  revert p. induction ms as [|m ms IH]; intros p Hms; [simpl; lia|].
  apply Forall_cons in Hms as [Hm Hms].
  etrans; [|apply IH, Hms].
  apply invoke_payment_monotone. unfold refund_requests_nonneg.
  by rewrite Forall_singleton.
Qed.

Lemma run_payment_amount (ms : list PaymentCall) (p : Payment.t) :
  Payment.amount (run_payment ms p) = Payment.amount p.
Proof.
  revert p. induction ms as [|m ms IH]; intros p; [done|].
  simpl. fold (run_payment ms (settle p (invoke_payment m p))).
  by rewrite IH, invoke_payment_amount.
Qed.

(** C3, as the code has it: for every payment whose [refund_amount] is
    unset or at most [amount], and every sequence of calls of
    [mark_successful], [mark_failed], [mark_cancelled] and [process_refund]
    whose refund requests are not negative, [refund_amount] stays at most
    [amount] and never decreases.  A refund request larger than [amount]
    minus the amount refunded so far raises and leaves the payment as it
    was: "Refund amount exceeds remaining amount" when the status is
    [success], "Payment cannot be refunded" in every other status.  A refund
    that returns adds the request to [refund_amount] and sets the status to
    [refunded] when the total equals [amount], [partially_refunded]
    otherwise. *)
Theorem refund_accounting
    (p : Payment.t) (before after : list PaymentCall) :
  refund_bounded p →
  refund_requests_nonneg (before ++ after) →
  refund_bounded (run_payment (before ++ after) p)
  ∧ refunded (run_payment before p)
    <= refunded (run_payment (before ++ after) p)
  ∧ (∀ q refund reason rid,
       refund > Payment.amount q - refunded q →
       Payment.process_refund refund reason rid q
       = Raised (if bool_decide (Payment.status q = Payment.SUCCESS)
                 then exceeds_remaining else cannot_be_refunded)
       ∧ settle q (Payment.process_refund refund reason rid q) = q)
  ∧ (∀ q refund reason rid q',
       Payment.process_refund refund reason rid q = Returned q' →
       Payment.refund_amount q' = Some (refunded q + refund)
       ∧ Payment.status q'
         = status_after_refund (refunded q + refund) (Payment.amount q)
       ∧ Payment.amount q' = Payment.amount q).
Proof.
  intros Hp Hnn. split; [|split; [|split]].
  - by apply run_payment_bounded.
  - rewrite run_payment_app. apply run_payment_monotone.
    by apply Forall_app in Hnn as [_ ?].
  - intros q refund reason rid Hgt.
    destruct (decide (Payment.status q = Payment.SUCCESS)) as [Hs|Hs].
    + rewrite bool_decide_eq_true_2 by done.
      by rewrite process_refund_exceeds.
    + rewrite bool_decide_eq_false_2 by done.
      by rewrite process_refund_not_success.
  - intros q refund reason rid q' Hret.
    by destruct (process_refund_returned _ _ _ _ _ Hret)
      as (_ & _ & ? & ? & ?).
Qed.

(** C3 on [paid_100]: a refund of 40.00, then [mark_successful] and a
    refund of 30.00; a request of 70.00 on [refunded_40]; the refund of
    40.00 that leads from [paid_100] to [refunded_40]. *)
Lemma refund_accounting_witness :
  refund_bounded
    (run_payment ([PProcessRefund 4000 None None]
                  ++ [PMarkSuccessful None None; PProcessRefund 3000 None None])
       paid_100)
  ∧ refunded (run_payment [PProcessRefund 4000 None None] paid_100)
    <= refunded
         (run_payment ([PProcessRefund 4000 None None]
                       ++ [PMarkSuccessful None None;
                           PProcessRefund 3000 None None])
            paid_100)
  ∧ (Payment.process_refund 7000 None None refunded_40
     = Raised (if bool_decide (Payment.status refunded_40 = Payment.SUCCESS)
               then exceeds_remaining else cannot_be_refunded)
     ∧ settle refunded_40 (Payment.process_refund 7000 None None refunded_40)
       = refunded_40)
  ∧ (Payment.refund_amount refunded_40 = Some (refunded paid_100 + 4000)
     ∧ Payment.status refunded_40
       = status_after_refund (refunded paid_100 + 4000)
           (Payment.amount paid_100)
     ∧ Payment.amount refunded_40 = Payment.amount paid_100).
Proof.
  destruct (refund_accounting paid_100 [PProcessRefund 4000 None None]
              [PMarkSuccessful None None; PProcessRefund 3000 None None])
    as (H1 & H2 & H3 & H4).
  - intros r Hr. vm_compute in Hr. discriminate.
  - repeat constructor; lia.
  - split; [exact H1|]. split; [exact H2|]. split.
    + apply H3. vm_compute. reflexivity.
    + apply (H4 paid_100 4000 None None refunded_40). reflexivity.
Defined.

(** C3 as stated fails: on [refunded_40] (40.00 of 100.00 refunded, status
    [partially_refunded]) a request of 70.00 exceeds the 60.00 left, yet
    the error is "Payment cannot be refunded", not the one for an excess. *)
Lemma excess_on_partially_refunded :
  Payment.amount refunded_40 - refunded refunded_40 = 6000
  ∧ Payment.process_refund 7000 None None refunded_40
    = Raised cannot_be_refunded
  ∧ bool_decide (cannot_be_refunded = exceeds_remaining) = false.
Proof. vm_compute. repeat split. Qed.

(** [process_refund] does not test the sign of the request: a negative one
    lowers the amount refunded, here from 40.00 to 30.00. *)
Example negative_refund_lowers_total :
  refunded success_again_40 = 4000
  ∧ refunded (run_payment [PProcessRefund (-1000) None None] success_again_40)
    = 3000.
Proof. vm_compute. repeat split. Qed.

(** ** [PaymentService.process_refund] *)

Lemma no_refund_recorded (p : Payment.t) :
  truthy_dec (Payment.refund_amount p) = false → refunded p = 0.
Proof.
  unfold refunded. destruct (Payment.refund_amount p) as [r|]; simpl; [|done].
  intros H. apply negb_false_iff in H. lia.
Qed.

(** C10, as the code has it: for a payment that can be refunded and has no
    refund recorded ([refund_amount] unset or zero),
    [PaymentService.process_refund] with the amount omitted returns [True]
    and commits the payment with [refund_amount] equal to [amount] and the
    status [refunded]; when a positive refund is already recorded on it, the
    call raises "Refund amount exceeds remaining amount" and nothing is
    committed. *)
Theorem refund_without_amount
    (payments : gmap UUID Payment.t) (pid : UUID) (p : Payment.t)
    (reason : option string) :
  payments !! pid = Some p →
  Payment.can_be_refunded p = true →
  (truthy_dec (Payment.refund_amount p) = false →
   ∃ p', PaymentService.process_refund pid None reason payments
         = Returned (<[pid := p']> payments, true)
         ∧ Payment.refund_amount p' = Some (Payment.amount p)
         ∧ Payment.status p' = Payment.REFUNDED
         ∧ Payment.amount p' = Payment.amount p)
  ∧ (0 < refunded p →
     PaymentService.process_refund pid None reason payments
     = Raised exceeds_remaining).
Proof.
  intros Hget Hcan. pose proof Hcan as Hs. apply can_be_refunded_iff in Hs.
  unfold PaymentService.process_refund. rewrite Hget, Hcan. simpl. split.
  - intros Hnone. pose proof (no_refund_recorded p Hnone) as H0.
    destruct (process_refund_accepts p (Payment.amount p) reason None Hs)
      as (p' & Hp' & Hr & Hst & Ha); [lia|].
    rewrite Hp'. exists p'. rewrite Hr, Hst, H0. unfold status_after_refund.
    rewrite bool_decide_eq_true_2 by lia.
    repeat split; done.
  - intros Hpos. rewrite process_refund_exceeds; [done..|lia].
Qed.

(** C10 on a table that holds [paid_100], and on one that holds
    [success_again_40], under key 7. *)
Lemma refund_without_amount_witness :
  (∃ p', PaymentService.process_refund 7%positive None None
           {[ 7%positive := paid_100 ]}
         = Returned (<[7%positive := p']> {[ 7%positive := paid_100 ]}, true)
         ∧ Payment.refund_amount p' = Some (Payment.amount paid_100)
         ∧ Payment.status p' = Payment.REFUNDED
         ∧ Payment.amount p' = Payment.amount paid_100)
  ∧ PaymentService.process_refund 7%positive None None
      {[ 7%positive := success_again_40 ]}
    = Raised exceeds_remaining.
Proof.
  split.
  - apply (refund_without_amount {[ 7%positive := paid_100 ]} 7%positive
             paid_100 None); vm_compute; reflexivity.
  - apply (refund_without_amount {[ 7%positive := success_again_40 ]}
             7%positive success_again_40 None); vm_compute; reflexivity.
Defined.

(** C10 as stated fails: payment 7 of [table_success_again] can be
    refunded ([success], with 40.00 refunded before it was reported
    successful again), and the call without an amount raises. *)
Lemma full_refund_after_partial_raises :
  Payment.can_be_refunded <$> table_success_again !! 7%positive = Some true
  ∧ Payment.amount <$> table_success_again !! 7%positive = Some 10000
  ∧ Payment.refund_amount <$> table_success_again !! 7%positive
    = Some (Some 4000)
  ∧ PaymentService.process_refund 7%positive None None table_success_again
    = Raised exceeds_remaining.
Proof. vm_compute. repeat split. Qed.

(** ** Registrations: the four transition methods *)

Lemma confirm_returns now r :
  Registration.confirm now r
  = Returned (if bool_decide (Registration.status r = Registration.PENDING)
              then Registration.set_confirmed_at (Some now)
                     (Registration.set_status Registration.CONFIRMED r)
              else r).
Proof. unfold Registration.confirm. by case_bool_decide. Qed.

Lemma mark_as_paid_returns r :
  Registration.mark_as_paid r
  = Returned (if bool_decide (Registration.status r = Registration.CONFIRMED)
              then Registration.set_status Registration.PAID r
              else r).
Proof. unfold Registration.mark_as_paid. by case_bool_decide. Qed.

(** No registration method raises. *)
Lemma invoke_registration_returns (m : RegistrationCall) (r : Registration.t) :
  ∃ r', invoke_registration m r = Returned r'.
Proof.
  destruct m as [now|now reason|reason|]; simpl.
  - rewrite confirm_returns. eauto.
  - unfold Registration.cancel.
    destruct (Registration.can_be_cancelled r); eauto.
  - unfold Registration.reject. case_bool_decide; eauto.
  - rewrite mark_as_paid_returns. eauto.
Qed.

(** A call made from a state in which §4.2 does not allow it changes
    nothing. *)
Lemma invoke_registration_refused (m : RegistrationCall) (r : Registration.t) :
  allowed_from m (Registration.status r) = false →
  invoke_registration m r = Returned r.
Proof.
  destruct m as [now|now reason|reason|]; simpl; intros H.
  - unfold Registration.confirm. by rewrite H.
  - unfold Registration.cancel, Registration.can_be_cancelled. by rewrite H.
  - unfold Registration.reject. by rewrite H.
  - unfold Registration.mark_as_paid. by rewrite H.
Qed.

(** C5, as the code has it: [mark_as_paid] looks at the status of the
    registration only.  Whatever the payments table holds for it, a
    [confirmed] registration becomes [paid] with its other fields kept, and
    a registration in any other status is returned as it is. *)
Theorem mark_as_paid_ignores_payment (w : World) (r : Registration.t) :
  (Registration.status r = Registration.CONFIRMED →
   Registration.mark_as_paid r
   = Returned (Registration.set_status Registration.PAID r))
  ∧ (Registration.status r ≠ Registration.CONFIRMED →
     Registration.mark_as_paid r = Returned r)
  ∧ (∀ r', Registration.mark_as_paid r = Returned r' →
           Registration.status r' = Registration.PAID →
           Registration.status r ∈ [Registration.CONFIRMED; Registration.PAID])
  ∧ payment_of w (settle r (Registration.mark_as_paid r)) = payment_of w r.
Proof.
  rewrite mark_as_paid_returns. split; [|split; [|split]].
  - intros H. by rewrite bool_decide_eq_true_2.
  - intros H. by rewrite bool_decide_eq_false_2.
  - intros r' [= <-]. case_bool_decide as Hc.
    + intros _. rewrite Hc. set_solver.
    + intros ->. set_solver.
  - simpl. by case_bool_decide.
Qed.

(** C5 on [confirmed_reg], whose payment is [initiated], and on
    [paid_reg]. *)
Lemma mark_as_paid_ignores_payment_witness :
  Registration.mark_as_paid confirmed_reg = Returned paid_reg
  ∧ Registration.mark_as_paid paid_reg = Returned paid_reg
  ∧ Registration.status confirmed_reg
    ∈ [Registration.CONFIRMED; Registration.PAID]
  ∧ payment_of awaiting_payment
      (settle confirmed_reg (Registration.mark_as_paid confirmed_reg))
    = payment_of awaiting_payment confirmed_reg.
Proof.
  destruct (mark_as_paid_ignores_payment awaiting_payment confirmed_reg)
    as (H1 & _ & H3 & H4).
  destruct (mark_as_paid_ignores_payment awaiting_payment paid_reg)
    as (_ & H2 & _).
  split; [|split; [|split]].
  - apply H1. reflexivity.
  - apply H2. vm_compute. discriminate.
  - apply (H3 paid_reg); reflexivity.
  - exact H4.
Defined.

(** C5 as stated fails: the payment of [confirmed_reg] is [initiated], not
    [success], and [mark_as_paid] sets the status to [paid]. *)
Lemma paid_without_successful_payment :
  Payment.status <$> payment_of awaiting_payment confirmed_reg
  = Some Payment.INITIATED
  ∧ Registration.status confirmed_reg = Registration.CONFIRMED
  ∧ Registration.status
      (settle confirmed_reg (Registration.mark_as_paid confirmed_reg))
    = Registration.PAID.
Proof. vm_compute. repeat split. Qed.

(** C6, as the code has it: [confirm], [cancel], [reject] and
    [mark_as_paid] never raise; called from a state in which the call is
    not allowed, each returns and leaves the registration as it was.  In
    particular [cancel] on a [paid] registration returns and the
    registration stays [paid]. *)
Theorem refused_registration_call_is_silent
    (m : RegistrationCall) (r : Registration.t) :
  allowed_from m (Registration.status r) = false →
  invoke_registration m r = Returned r
  ∧ settle r (invoke_registration m r) = r
  ∧ (∀ m' r', raised (invoke_registration m' r') = false).
Proof.
  intros H. rewrite invoke_registration_refused by done.
  repeat split. intros m' r'.
  by destruct (invoke_registration_returns m' r') as [? ->].
Qed.

(** C6 at [cancel] on [paid_reg]. *)
Lemma refused_registration_call_is_silent_witness :
  invoke_registration (RCancel 9 (Some "changed my mind")) paid_reg
  = Returned paid_reg
  ∧ settle paid_reg
      (invoke_registration (RCancel 9 (Some "changed my mind")) paid_reg)
    = paid_reg
  ∧ (∀ m' r', raised (invoke_registration m' r') = false).
Proof.
  apply (refused_registration_call_is_silent
           (RCancel 9 (Some "changed my mind")) paid_reg).
  vm_compute. reflexivity.
Defined.

(** C6 as stated fails: cancelling the [paid] registration [paid_reg]
    raises nothing and changes nothing. *)
Lemma cancel_paid_is_silent :
  Registration.status paid_reg = Registration.PAID
  ∧ allowed_from (RCancel 9 None) (Registration.status paid_reg) = false
  ∧ raised (Registration.cancel 9 None paid_reg) = false
  ∧ Registration.cancel 9 None paid_reg = Returned paid_reg.
Proof. vm_compute. repeat split. Qed.

(** ** Sponsorships *)

Lemma approve_allowed (s : Sponsorship.t) approved reviewer notes :
  Sponsorship.can_be_approved s = true →
  Sponsorship.approve approved reviewer notes s
  = Returned
      (Sponsorship.when (truthy_str notes) (Sponsorship.set_review_notes notes)
         (Sponsorship.when (truthy_str reviewer)
            (Sponsorship.set_reviewed_by reviewer)
            (Sponsorship.when (bool_decide (approved ≠ None))
               (Sponsorship.set_approved_amount approved)
               (Sponsorship.set_status Sponsorship.APPROVED s)))).
Proof. intros H. unfold Sponsorship.approve. by rewrite H. Qed.

(** C7, as the code has it: for every sponsorship in state [applied] or
    [under_review], [approve] with the amount omitted returns, sets the
    status to [approved] and leaves [approved_amount] as it was, so it stays
    unset on a sponsorship that had none, and [final_amount] is then
    [requested_amount]; [approve] with a positive amount sets
    [approved_amount] to it. *)
Theorem approve_without_amount
    (s : Sponsorship.t) (amount : Decimal) (reviewer notes : option string) :
  Sponsorship.status s ∈ [Sponsorship.APPLIED; Sponsorship.UNDER_REVIEW] →
  (∃ s', Sponsorship.approve None reviewer notes s = Returned s'
         ∧ Sponsorship.status s' = Sponsorship.APPROVED
         ∧ Sponsorship.approved_amount s' = Sponsorship.approved_amount s
         ∧ Sponsorship.requested_amount s' = Sponsorship.requested_amount s
         ∧ (Sponsorship.approved_amount s = None →
            Sponsorship.final_amount s' = Sponsorship.requested_amount s))
  ∧ (0 < amount →
     ∃ s', Sponsorship.approve (Some amount) reviewer notes s = Returned s'
           ∧ Sponsorship.status s' = Sponsorship.APPROVED
           ∧ Sponsorship.approved_amount s' = Some amount
           ∧ Sponsorship.final_amount s' = amount).
Proof.
  intros Hs.
  assert (Sponsorship.can_be_approved s = true) as Hcan
    by by apply bool_decide_eq_true_2.
  split; [|intros _]; rewrite approve_allowed by done; eexists;
    (split; [reflexivity|]); unfold Sponsorship.when, Sponsorship.final_amount;
    destruct (truthy_str notes), (truthy_str reviewer); simpl;
    repeat split; try done; by intros ->.
Qed.

(** C7 on [applied_50000], with 40000.00 for the amount that is given. *)
Lemma approve_without_amount_witness :
  (∃ s', Sponsorship.approve None (Some "admin@example.org") None
           applied_50000 = Returned s'
         ∧ Sponsorship.status s' = Sponsorship.APPROVED
         ∧ Sponsorship.approved_amount s'
           = Sponsorship.approved_amount applied_50000
         ∧ Sponsorship.requested_amount s'
           = Sponsorship.requested_amount applied_50000
         ∧ Sponsorship.final_amount s'
           = Sponsorship.requested_amount applied_50000)
  ∧ (∃ s', Sponsorship.approve (Some 4000000) (Some "admin@example.org") None
             applied_50000 = Returned s'
           ∧ Sponsorship.status s' = Sponsorship.APPROVED
           ∧ Sponsorship.approved_amount s' = Some 4000000
           ∧ Sponsorship.final_amount s' = 4000000).
Proof.
  destruct (approve_without_amount applied_50000 4000000
              (Some "admin@example.org") None)
    as ((s' & H1 & H2 & H3 & H4 & H5) & H6).
  - simpl. constructor.
  - split.
    + exists s'. repeat split; try assumption. apply H5. reflexivity.
    + apply H6. reflexivity.
Defined.

(** C7 as stated fails: approving [applied_50000] with the amount omitted
    leaves [approved_amount] unset although the status is [approved]. *)
Lemma approved_amount_stays_unset :
  Sponsorship.status applied_50000 = Sponsorship.APPLIED
  ∧ Sponsorship.requested_amount applied_50000 = 5000000
  ∧ raised (Sponsorship.approve None None None applied_50000) = false
  ∧ Sponsorship.status
      (settle applied_50000 (Sponsorship.approve None None None applied_50000))
    = Sponsorship.APPROVED
  ∧ Sponsorship.approved_amount
      (settle applied_50000 (Sponsorship.approve None None None applied_50000))
    = None.
Proof. vm_compute. repeat split. Qed.

(** C8, as the code has it: on a sponsorship in a terminal state
    ([rejected], [cancelled] or [expired]) each of [mark_under_review],
    [approve], [reject] and [cancel] raises a [ValueError] whose message is
    fixed by the method called, the same in every state, and the
    sponsorship is left as it was. *)
Theorem terminal_sponsorship_refuses
    (m : SponsorshipCall) (s : Sponsorship.t) :
  terminal (Sponsorship.status s) = true →
  invoke_sponsorship m s = Raised (ValueError (refusal m))
  ∧ settle s (invoke_sponsorship m s) = s.
Proof.
  intros H.
  assert (invoke_sponsorship m s = Raised (ValueError (refusal m))) as ->;
    [|done].
  destruct m as [reviewer|approved reviewer notes|reason reviewer|reason];
    simpl;
    unfold Sponsorship.mark_under_review, Sponsorship.approve,
      Sponsorship.reject, Sponsorship.cancel, Sponsorship.can_be_approved,
      Sponsorship.can_be_rejected, Sponsorship.can_be_cancelled;
    destruct (Sponsorship.status s);
    first [ by vm_compute in H | reflexivity ].
Qed.

(** C8 at [approve] on [rejected_50000]. *)
Lemma terminal_sponsorship_refuses_witness :
  invoke_sponsorship (SApprove (Some 4000000) None None) rejected_50000
  = Raised (ValueError (refusal (SApprove (Some 4000000) None None)))
  ∧ settle rejected_50000
      (invoke_sponsorship (SApprove (Some 4000000) None None) rejected_50000)
    = rejected_50000.
Proof.
  apply (terminal_sponsorship_refuses (SApprove (Some 4000000) None None)
           rejected_50000).
  vm_compute. reflexivity.
Defined.

(** C8 as stated fails: the error [approve] raises on the [rejected]
    sponsorship [rejected_50000] does not name the current state, and the
    one [mark_under_review] raises names neither state. *)
Lemma refusal_does_not_name_current_state :
  Sponsorship.status rejected_50000 = Sponsorship.REJECTED
  ∧ Sponsorship.approve None None None rejected_50000
    = Raised (ValueError "Sponsorship cannot be approved")
  ∧ names (ValueError "Sponsorship cannot be approved")
      (Sponsorship.status rejected_50000) = false
  ∧ Sponsorship.mark_under_review None rejected_50000
    = Raised (ValueError
                "Only applied sponsorships can be marked as under review")
  ∧ names (ValueError
             "Only applied sponsorships can be marked as under review")
      (Sponsorship.status rejected_50000) = false
  ∧ names (ValueError
             "Only applied sponsorships can be marked as under review")
      (attempted (SMarkUnderReview None)) = false.
Proof. vm_compute. repeat split. Qed.

(** ** Sport categories: eligibility by gender *)







(** ** Capacity of a category *)

Lemma current_registrations_seats (c : SportCategory.t) :
  SportCategory.current_registrations c
  = Z.of_nat (seats (SportCategory.registrations c)).
Proof. reflexivity. Qed.

Lemma seats_cons (r : Registration.t) (l : list Registration.t) :
  seats (r :: l) = (occupies (Registration.status r) + seats l)%nat.
Proof.
  unfold seats, occupies.
  change (bool_decide (Registration.value (Registration.status r)
                       ∈ ["confirmed"; "paid"]))
    with (SportCategory.counted r).
  destruct (SportCategory.counted r) eqn:E.
  - by rewrite filter_cons_True.
  - rewrite filter_cons_False; [done|]. by rewrite E.
Qed.

Lemma seats_app (l l' : list Registration.t) :
  seats (l ++ l') = (seats l + seats l')%nat.
Proof.
  induction l as [|r l IH]; [done|].
  rewrite <- app_comm_cons, !seats_cons, IH. lia.
Qed.

Lemma seats_alter (f : Registration.t → Registration.t) (i : nat)
    (l : list Registration.t) (r : Registration.t) :
  l !! i = Some r →
  (seats (alter f i l) + occupies (Registration.status r)
   = seats l + occupies (Registration.status (f r)))%nat.
Proof.
  revert i. induction l as [|x l IH]; intros [|i] H; try done.
  - injection H as ->. simpl. rewrite !seats_cons. lia.
  - simpl in *. rewrite !seats_cons. specialize (IH i H).
    change (alter f i l) with (list_alter f i l) in IH. lia.
Qed.

Lemma alter_out_of_range {A : Type} (f : A → A) (i : nat) (l : list A) :
  l !! i = None → alter f i l = l.
Proof.
  revert i. induction l as [|x l IH]; intros [|i] H; try done.
  simpl in *. f_equal. by apply IH.
Qed.

Lemma status_after_call (m : RegistrationCall) (r : Registration.t) :
  Registration.status (settle r (invoke_registration m r))
  = next_status m (Registration.status r).
Proof.
  destruct m as [now|now reason|reason|]; simpl.
  - unfold Registration.confirm. by case_bool_decide.
  - unfold Registration.cancel, Registration.can_be_cancelled.
    case_bool_decide; [|done]. by destruct (truthy_str reason).
  - unfold Registration.reject.
    case_bool_decide; [|done]. by destruct (truthy_str reason).
  - unfold Registration.mark_as_paid. by case_bool_decide.
Qed.

(** Only [confirm] can make a registration occupy a seat. *)
Lemma occupies_next_status (m : RegistrationCall)
    (s : Registration.RegistrationStatus) :
  (occupies (next_status m s)
   <= (if is_confirm m then 1 else occupies s))%nat.
Proof. destruct m, s; vm_compute; lia. Qed.

Lemma seats_call (i : nat) (m : RegistrationCall) (c : SportCategory.t) :
  (seats (SportCategory.registrations (call_registration i m c))
   <= seats (SportCategory.registrations c)
      + (if is_confirm m then 1 else 0))%nat.
Proof.
  unfold call_registration. simpl.
  destruct (SportCategory.registrations c !! i) as [r|] eqn:E.
  - pose proof (seats_alter (λ r, settle r (invoke_registration m r)) i _ r E)
      as H.
    simpl in H. rewrite status_after_call in H.
    pose proof (occupies_next_status m (Registration.status r)).
    destruct (is_confirm m); lia.
  - rewrite alter_out_of_range by done. lia.
Qed.

Lemma is_full_iff (c : SportCategory.t) :
  SportCategory.is_full c = true
  ↔ SportCategory.max_participants c <= SportCategory.current_registrations c.
Proof.
  unfold SportCategory.is_full, SportCategory.available_spots.
  rewrite Z.eqb_eq. lia.
Qed.

Lemma apply_event_max (c : SportCategory.t) (e : CategoryEvent) :
  SportCategory.max_participants (apply_event c e)
  = SportCategory.max_participants c.
Proof. by destruct e. Qed.

Lemma apply_event_within (c : SportCategory.t) (e : CategoryEvent) :
  within_capacity c → confirms_checked [e] c →
  within_capacity (apply_event c e).
Proof.
  unfold within_capacity. intros Hc [He _].
  rewrite apply_event_max, !current_registrations_seats in *.
  destruct e as [id student payment|i m].
  - simpl. rewrite seats_app. simpl. unfold seats at 2. simpl. lia.
  - change (apply_event c (Call i m)) with (call_registration i m c).
    pose proof (seats_call i m c) as Hs.
    destruct (is_confirm m) eqn:Hm; [|lia].
    assert (SportCategory.is_full c ≠ true) as Hfull
      by (destruct m; try done; by rewrite He).
    rewrite is_full_iff, current_registrations_seats in Hfull. lia.
Qed.

Lemma run_category_within (es : list CategoryEvent) (c : SportCategory.t) :
  within_capacity c → confirms_checked es c →
  within_capacity (run_category es c).
Proof.
  revert c. induction es as [|e es IH]; intros c Hc Hes; [done|].
  destruct Hes as [He Hes]. apply IH; [|done].
  by apply apply_event_within.
Qed.

(** C1, as the code has it: no method checks the ceiling, and none fails.
    [cancel], [reject] and [mark_as_paid] never raise the number of
    confirmed or paid registrations of a category, a new registration
    leaves it as it is, and [confirm] raises it by at most one; so the
    number stays at most [max_participants] along every sequence of
    registrations and calls in which each [confirm] is made while [is_full]
    is false.  [is_full] holds exactly when the number has reached
    [max_participants], and [can_register] is false for a full category. *)
Theorem capacity_kept_by_checked_confirms
    (c : SportCategory.t) (es : list CategoryEvent) :
  within_capacity c →
  confirms_checked es c →
  within_capacity (run_category es c)
  ∧ (∀ d i m,
       is_confirm m = false →
       SportCategory.current_registrations (call_registration i m d)
       <= SportCategory.current_registrations d)
  ∧ (∀ d i now,
       SportCategory.current_registrations (call_registration i (RConfirm now) d)
       <= SportCategory.current_registrations d + 1)
  ∧ (∀ d, SportCategory.is_full d = true
          ↔ SportCategory.max_participants d
            <= SportCategory.current_registrations d)
  ∧ (∀ unicode_lower d age gender,
       SportCategory.is_full d = true →
       SportCategory.can_register unicode_lower d age gender = false).
Proof.
  intros Hc Hes. split; [by apply run_category_within|].
  split; [|split; [|split]].
  - intros d i m Hm. rewrite !current_registrations_seats.
    pose proof (seats_call i m d) as Hs.
    destruct (is_confirm m); [discriminate|lia].
  - intros d i now. rewrite !current_registrations_seats.
    pose proof (seats_call i (RConfirm now) d) as Hs.
    change (is_confirm (RConfirm now)) with true in Hs. cbv iota in Hs. lia.
  - apply is_full_iff.
  - intros unicode_lower d age gender Hfull.
    unfold SportCategory.can_register.
    rewrite Hfull. by destruct (SportCategory.is_active d).
Qed.

(** C1 on [one_seat]: two students register, the first is confirmed and
    then cancels, the second is confirmed; and on [full_house]. *)
Lemma capacity_kept_by_checked_confirms_witness :
  within_capacity
    (run_category
       [Register 1%positive 5%positive None;
        Register 2%positive 6%positive None;
        Call 0 (RConfirm 1); Call 0 (RCancel 2 None); Call 1 (RConfirm 3)]
       one_seat)
  ∧ SportCategory.current_registrations
      (call_registration 0 (RCancel 2 None) full_house)
    <= SportCategory.current_registrations full_house
  ∧ SportCategory.max_participants full_house
    <= SportCategory.current_registrations full_house
  ∧ SportCategory.can_register id full_house 20 "male" = false.
Proof.
  destruct (capacity_kept_by_checked_confirms one_seat
              [Register 1%positive 5%positive None;
               Register 2%positive 6%positive None;
               Call 0 (RConfirm 1); Call 0 (RCancel 2 None);
               Call 1 (RConfirm 3)])
    as (H1 & H2 & _ & H4 & H5).
  - by vm_compute.
  - simpl. repeat split; reflexivity.
  - split; [exact H1|]. split; [|split].
    + apply H2. reflexivity.
    + apply H4. reflexivity.
    + apply H5. reflexivity.
Defined.

(** C1 as stated fails: [one_seat] has room for one participant; two
    students register and both are confirmed, the second while the
    category is full, and the category then counts two. *)
Lemma second_confirm_overbooks :
  SportCategory.max_participants one_seat = 1
  ∧ SportCategory.current_registrations one_seat = 0
  ∧ SportCategory.is_full
      (run_category
         [Register 1%positive 5%positive None;
          Register 2%positive 6%positive None;
          Call 0 (RConfirm 1)]
         one_seat)
    = true
  ∧ raised (Registration.confirm 2
              (new_registration 2%positive 6%positive None one_seat))
    = false
  ∧ SportCategory.max_participants overbooked = 1
  ∧ SportCategory.current_registrations overbooked = 2.
Proof. vm_compute. repeat split. Qed.

(** ** A failed payment and the seat of its registration *)

Lemma mark_failed_status reason data p :
  ∃ p', Payment.mark_failed reason data p = Returned p'
        ∧ Payment.status p' = Payment.FAILED.
Proof.
  unfold Payment.mark_failed, Payment.when. eexists. split; [reflexivity|].
  by destruct (truthy_str reason), (truthy_dict data).
Qed.

(** C4, as the code has it: for every registration in state [confirmed]
    whose payment has a positive amount, reporting the payment failed
    through [PaymentService.update_payment_status] returns [True] and sets
    the status of the payment to [failed]; the category and its
    registrations are not touched, so the registration stays [confirmed]
    and the number of occupied seats is the same.  The seat is given back
    by a call of [cancel] on the registration, which makes it [cancelled]
    and lowers the number of occupied seats by 1. *)
Theorem failed_payment_keeps_seat
    (w : World) (i : nat) (r : Registration.t) (pid : UUID) (p : Payment.t)
    (data : option dict) (now : datetime) (reason : option string) :
  SportCategory.registrations (category w) !! i = Some r →
  Registration.status r = Registration.CONFIRMED →
  Registration.payment_id r = Some pid →
  payments w !! pid = Some p →
  0 < Payment.amount p →
  ∃ w', update_payment_status pid Payment.FAILED data w = Returned (w', true)
        ∧ Payment.status <$> payments w' !! pid = Some Payment.FAILED
        ∧ category w' = category w
        ∧ registration_status w' i = Some Registration.CONFIRMED
        ∧ SportCategory.current_registrations (category w')
          = SportCategory.current_registrations (category w)
        ∧ registration_status (cancel_registration i now reason w') i
          = Some Registration.CANCELLED
        ∧ SportCategory.current_registrations
            (category (cancel_registration i now reason w'))
          = SportCategory.current_registrations (category w) - 1.
Proof.
  intros Hi Hs Hpid Hp Hpos.
  unfold update_payment_status, PaymentService.update_payment_status.
  rewrite Hp.
  destruct (mark_failed_status (get_if data "error_message") data p)
    as (p' & -> & Hfailed).
  eexists. split; [reflexivity|]. simpl.
  split; [by rewrite lookup_insert_eq; simpl; rewrite Hfailed|].
  split; [done|].
  split; [by unfold registration_status; simpl; rewrite Hi; simpl; rewrite Hs|].
  split; [done|].
  assert (Registration.status (settle r (Registration.cancel now reason r))
          = Registration.CANCELLED) as Hcancel.
  { change (Registration.cancel now reason r)
      with (invoke_registration (RCancel now reason) r).
    by rewrite status_after_call, Hs. }
  unfold registration_status, cancel_registration, call_registration. simpl.
  split.
  - rewrite list_lookup_alter, Hi. simpl.
    case_decide; [|done]. simpl. by rewrite Hcancel.
  - rewrite !current_registrations_seats. simpl.
    pose proof (seats_alter (λ r, settle r (Registration.cancel now reason r))
                  i _ r Hi) as H.
    simpl in H. rewrite Hcancel, Hs in H.
    change (occupies Registration.CANCELLED) with 0%nat in H.
    change (occupies Registration.CONFIRMED) with 1%nat in H. lia.
Qed.

(** C4 on [awaiting_payment]. *)
Lemma failed_payment_keeps_seat_witness :
  ∃ w', update_payment_status 7%positive Payment.FAILED
          (Some {[ "error_message" := "card declined" ]}) awaiting_payment
        = Returned (w', true)
        ∧ Payment.status <$> payments w' !! 7%positive = Some Payment.FAILED
        ∧ category w' = category awaiting_payment
        ∧ registration_status w' 0 = Some Registration.CONFIRMED
        ∧ SportCategory.current_registrations (category w')
          = SportCategory.current_registrations (category awaiting_payment)
        ∧ registration_status
            (cancel_registration 0 9 (Some "payment_failed") w') 0
          = Some Registration.CANCELLED
        ∧ SportCategory.current_registrations
            (category (cancel_registration 0 9 (Some "payment_failed") w'))
          = SportCategory.current_registrations (category awaiting_payment) - 1.
Proof.
  apply (failed_payment_keeps_seat awaiting_payment 0 confirmed_reg 7%positive
           initiated_100 (Some {[ "error_message" := "card declined" ]}) 9
           (Some "payment_failed"));
    vm_compute; reflexivity.
Defined.

(** C4 as stated fails: after payment 7 of [awaiting_payment] is reported
    failed, its registration is still [confirmed] and the category still
    counts one occupied seat. *)
Lemma failed_payment_cancels_nothing :
  registration_status awaiting_payment 0 = Some Registration.CONFIRMED
  ∧ SportCategory.current_registrations (category awaiting_payment) = 1
  ∧ Payment.status <$> payments after_failure !! 7%positive
    = Some Payment.FAILED
  ∧ registration_status after_failure 0 = Some Registration.CONFIRMED
  ∧ SportCategory.current_registrations (category after_failure) = 1.
Proof. vm_compute. repeat split. Qed.

(** * Further properties of the models *)

(** ** Payments: status predicates and the [mark_*] methods *)

(** X1: the five status predicates of [Payment] split the statuses: for
    every payment exactly one of [is_pending], [is_successful],
    [is_failed], [is_cancelled] and [is_refunded] holds.  [is_completed]
    is [is_successful] or [is_refunded], and [can_be_refunded] is
    [is_successful]: its second conjunct never decides. *)
Theorem payment_predicates_partition (p : Payment.t) :
  (Nat.b2n (Payment.is_pending p) + Nat.b2n (Payment.is_successful p)
   + Nat.b2n (Payment.is_failed p) + Nat.b2n (Payment.is_cancelled p)
   + Nat.b2n (Payment.is_refunded p) = 1)%nat
  ∧ Payment.is_completed p
    = Payment.is_successful p || Payment.is_refunded p
  ∧ Payment.can_be_refunded p = Payment.is_successful p.
Proof.
  unfold Payment.is_pending, Payment.is_successful, Payment.is_failed,
    Payment.is_cancelled, Payment.is_refunded, Payment.is_completed,
    Payment.can_be_refunded, Payment.is_successful, Payment.is_refunded.
  destruct (Payment.status p); vm_compute; repeat split.
Qed.

(** X2: [mark_successful], [mark_failed] and [mark_cancelled] have no
    guard: from every status they return and set [success], [failed] and
    [cancelled]; they keep the amount, the registration and the refund
    bookkeeping; and calling one a second time with the same arguments
    changes nothing more. *)
Theorem mark_methods_unguarded_idempotent
    (p : Payment.t) (text : option string) (data : option dict) :
  (∃ p', Payment.mark_successful text data p = Returned p'
         ∧ Payment.status p' = Payment.SUCCESS
         ∧ Payment.webhook_processed p' = true
         ∧ Payment.amount p' = Payment.amount p
         ∧ Payment.registration_id p' = Payment.registration_id p
         ∧ Payment.refund_amount p' = Payment.refund_amount p
         ∧ Payment.mark_successful text data p' = Returned p')
  ∧ (∃ p', Payment.mark_failed text data p = Returned p'
           ∧ Payment.status p' = Payment.FAILED
           ∧ Payment.webhook_processed p' = true
           ∧ Payment.amount p' = Payment.amount p
           ∧ Payment.registration_id p' = Payment.registration_id p
           ∧ Payment.refund_amount p' = Payment.refund_amount p
           ∧ Payment.mark_failed text data p' = Returned p')
  ∧ (∃ p', Payment.mark_cancelled text p = Returned p'
           ∧ Payment.status p' = Payment.CANCELLED
           ∧ Payment.webhook_processed p' = Payment.webhook_processed p
           ∧ Payment.amount p' = Payment.amount p
           ∧ Payment.registration_id p' = Payment.registration_id p
           ∧ Payment.refund_amount p' = Payment.refund_amount p
           ∧ Payment.mark_cancelled text p' = Returned p').
Proof.
  unfold Payment.mark_successful, Payment.mark_failed, Payment.mark_cancelled,
    Payment.when.
  destruct p. repeat split; eexists; (split; [reflexivity|]);
    destruct (truthy_str text), (truthy_dict data); repeat split.
Qed.

(** X3: after a refund that returned, exactly one of [is_full_refund] and
    [is_partial_refund] holds, the full one when the total reached the
    amount; the payment can no longer be refunded and
    [refund_amount_remaining] reports 0, also when part of the amount is
    left. *)
Theorem flags_after_refund
    (p p' : Payment.t) (refund : Decimal) (reason rid : option string) :
  Payment.process_refund refund reason rid p = Returned p' →
  Payment.is_full_refund p'
  = bool_decide (refunded p + refund = Payment.amount p)
  ∧ Payment.is_partial_refund p' = negb (Payment.is_full_refund p')
  ∧ Payment.can_be_refunded p' = false
  ∧ Payment.refund_amount_remaining p' = 0.
Proof.
  intros Hret.
  destruct (process_refund_returned _ _ _ _ _ Hret)
    as (_ & _ & Hr & Hs & Ha).
  unfold Payment.is_full_refund, Payment.is_partial_refund,
    Payment.can_be_refunded, Payment.refund_amount_remaining,
    Payment.is_successful, Payment.is_refunded.
  rewrite Hr, Hs, Ha. unfold status_after_refund.
  destruct (decide (refunded p + refund = Payment.amount p)) as [Htot|Htot].
  - rewrite !(bool_decide_eq_true_2 (_ = Payment.amount p)) by done.
    rewrite (bool_decide_eq_false_2 (_ < _)) by lia. repeat split.
  - rewrite !(bool_decide_eq_false_2 (_ = Payment.amount p)) by done.
    rewrite (bool_decide_eq_true_2 (_ < _)).
    + repeat split.
    + destruct (process_refund_returned _ _ _ _ _ Hret) as (_ & ? & _). lia.
Qed.

(** X3 on the refund of 40.00 that leads from [paid_100] to
    [refunded_40]. *)
Lemma flags_after_refund_witness :
  Payment.is_full_refund refunded_40
  = bool_decide (refunded paid_100 + 4000 = Payment.amount paid_100)
  ∧ Payment.is_partial_refund refunded_40
    = negb (Payment.is_full_refund refunded_40)
  ∧ Payment.can_be_refunded refunded_40 = false
  ∧ Payment.refund_amount_remaining refunded_40 = 0.
Proof.
  apply (flags_after_refund paid_100 refunded_40 4000 None None).
  reflexivity.
Defined.

(** X4: [set_provider_data] followed by [get_provider_data] on the same
    key gives the value back, whatever the payload was (unset, empty or
    filled); the other keys read as before, and the status, the amount and
    the refund bookkeeping are kept. *)
Theorem provider_data_round_trip
    (p : Payment.t) (key key' value : string) (fallback : option string) :
  key' ≠ key →
  ∃ p', Payment.set_provider_data key value p = Returned p'
        ∧ Payment.get_provider_data key fallback p' = Some value
        ∧ Payment.get_provider_data key' fallback p'
          = Payment.get_provider_data key' fallback p
        ∧ Payment.status p' = Payment.status p
        ∧ Payment.amount p' = Payment.amount p
        ∧ Payment.refund_amount p' = Payment.refund_amount p.
Proof.
  intros Hne. unfold Payment.set_provider_data. eexists.
  split; [reflexivity|].
  unfold Payment.get_provider_data, Payment.when.
  destruct p as [rid amt st prov ppid payload nts ra rr rfid wh]. simpl.
  assert (∀ m : dict, bool_decide (<[key:=value]> m = ∅) = false) as Hins.
  { intros m. apply bool_decide_eq_false_2, insert_non_empty. }
  destruct payload as [m|]; simpl.
  - destruct (bool_decide (m = ∅)) eqn:Hm; simpl; rewrite Hins; simpl.
    + apply bool_decide_eq_true_1 in Hm as ->.
      rewrite lookup_insert_eq, lookup_insert_ne, lookup_empty by done.
      repeat split.
    + rewrite lookup_insert_eq, lookup_insert_ne by done. repeat split.
  - rewrite Hins. simpl.
    rewrite lookup_insert_eq, lookup_insert_ne, lookup_empty by done.
    repeat split.
Qed.

(** X4 on [paid_100], whose payload is empty. *)
Lemma provider_data_round_trip_witness :
  ∃ p', Payment.set_provider_data "order" "order_123" paid_100 = Returned p'
        ∧ Payment.get_provider_data "order" None p' = Some "order_123"
        ∧ Payment.get_provider_data "method" None p'
          = Payment.get_provider_data "method" None paid_100
        ∧ Payment.status p' = Payment.status paid_100
        ∧ Payment.amount p' = Payment.amount paid_100
        ∧ Payment.refund_amount p' = Payment.refund_amount paid_100.
Proof.
  apply (provider_data_round_trip paid_100 "order" "method" "order_123" None).
  vm_compute. discriminate.
Defined.

(** ** [PaymentService]: what a call does to the table *)

(** Membership in a list of constructors, decided by computation. *)
Ltac in_list := apply (bool_decide_unpack _); vm_compute; exact I.
Ltac not_in_list H :=
  apply (bool_decide_pack _) in H; vm_compute in H; destruct H.

Lemma mark_returns (p : Payment.t) (text : option string) (data : option dict) :
  (∃ p', Payment.mark_successful text data p = Returned p'
         ∧ Payment.status p' = Payment.SUCCESS
         ∧ Payment.amount p' = Payment.amount p
         ∧ Payment.refund_amount p' = Payment.refund_amount p)
  ∧ (∃ p', Payment.mark_failed text data p = Returned p'
           ∧ Payment.status p' = Payment.FAILED
           ∧ Payment.amount p' = Payment.amount p
           ∧ Payment.refund_amount p' = Payment.refund_amount p)
  ∧ (∃ p', Payment.mark_cancelled text p = Returned p'
           ∧ Payment.status p' = Payment.CANCELLED
           ∧ Payment.amount p' = Payment.amount p
           ∧ Payment.refund_amount p' = Payment.refund_amount p).
Proof.
  unfold Payment.mark_successful, Payment.mark_failed, Payment.mark_cancelled,
    Payment.when.
  repeat split; eexists; (split; [reflexivity|]);
    destruct (truthy_str text), (truthy_dict data); repeat split.
Qed.

(** X5: [update_payment_status] never raises and returns whether the
    payment exists.  It leaves every other row as it is; it leaves the
    whole table as it is when the payment is missing or when the status
    asked for is not [success], [failed] or [cancelled]; otherwise it
    sets that status whatever the current one is, keeping the amount and
    the refund bookkeeping. *)
Theorem update_payment_status_table
    (payments : gmap UUID Payment.t) (pid other : UUID)
    (st : Payment.PaymentStatus) (data : option dict) :
  other ≠ pid →
  ∃ payments',
    PaymentService.update_payment_status pid st data payments
    = Returned (payments', bool_decide (is_Some (payments !! pid)))
    ∧ payments' !! other = payments !! other
    ∧ (payments !! pid = None → payments' = payments)
    ∧ (st ∉ [Payment.SUCCESS; Payment.FAILED; Payment.CANCELLED] →
       payments' = payments)
    ∧ (st ∈ [Payment.SUCCESS; Payment.FAILED; Payment.CANCELLED] →
       ∀ p, payments !! pid = Some p →
            ∃ p', payments' !! pid = Some p'
                  ∧ Payment.status p' = st
                  ∧ Payment.amount p' = Payment.amount p
                  ∧ Payment.refund_amount p' = Payment.refund_amount p).
Proof.
  intros Hne. unfold PaymentService.update_payment_status.
  destruct (payments !! pid) as [p|] eqn:Hp;
    [|exists payments; repeat split; done].
  destruct (mark_returns p (get_if data "payment_id") data)
    as ((ps & Hps & Hs) & _).
  destruct (mark_returns p (get_if data "error_message") data)
    as (_ & (pf & Hpf & Hf) & _).
  destruct (mark_returns p (get_if data "reason") data)
    as (_ & _ & (pc & Hpc & Hc)).
  destruct st; rewrite ?Hps, ?Hpf, ?Hpc; eexists;
    (split; [reflexivity|]);
    (split; [by rewrite lookup_insert_ne|]);
    (split; [done|]);
    (split; [intros Hst; first [by apply insert_id
                               |exfalso; apply Hst; in_list]|]);
    intros Hst q [= <-];
    first [by eexists; rewrite lookup_insert_eq | by not_in_list Hst].
Qed.

(** X5 on [table_success]: payment 7 is reported failed, payment 8 does
    not exist. *)
Lemma update_payment_status_table_witness :
  ∃ payments',
    PaymentService.update_payment_status 7%positive Payment.FAILED None
      table_success
    = Returned (payments', bool_decide (is_Some (table_success !! 7%positive)))
    ∧ payments' !! 8%positive = table_success !! 8%positive
    ∧ (∃ p', payments' !! 7%positive = Some p'
             ∧ Payment.status p' = Payment.FAILED
             ∧ Payment.amount p' = Payment.amount paid_100
             ∧ Payment.refund_amount p' = Payment.refund_amount paid_100).
Proof.
  destruct (update_payment_status_table table_success 7%positive 8%positive
              Payment.FAILED None)
    as (payments' & H1 & H2 & _ & _ & H5); [done|].
  exists payments'. split; [exact H1|]. split; [exact H2|].
  destruct (H5 ltac:(in_list)
              (Payment.mk (Some 1%positive) 10000 Payment.SUCCESS Payment.LOCAL
                 None (Some ∅) None None None None true))
    as (p' & ? & ? & ? & ?); [vm_compute; reflexivity|].
  exists p'. repeat split; assumption.
Defined.

(** X6: [PaymentService.process_refund] treats an amount of 0 as an
    omitted one.  It returns [False] and leaves the table as it is when
    the payment is missing or cannot be refunded; the only error it lets
    through is "Refund amount exceeds remaining amount"; and when it
    returns [True] the payment was [success] and is committed with the
    request added to its refunded amount. *)
Theorem service_refund_outcomes
    (payments : gmap UUID Payment.t) (pid : UUID) (requested : option Decimal)
    (reason : option string) :
  PaymentService.process_refund pid (Some 0) reason payments
  = PaymentService.process_refund pid None reason payments
  ∧ match PaymentService.process_refund pid requested reason payments with
    | Raised e =>
        e = exceeds_remaining
        ∧ Payment.can_be_refunded <$> payments !! pid = Some true
    | Returned (payments', false) =>
        payments' = payments
        ∧ Payment.can_be_refunded <$> payments !! pid ≠ Some true
    | Returned (payments', true) =>
        ∃ p p', payments !! pid = Some p
                ∧ Payment.status p = Payment.SUCCESS
                ∧ payments' = <[pid := p']> payments
                ∧ Payment.is_refunded p' = true
                ∧ Payment.amount p' = Payment.amount p
                ∧ Payment.refund_amount p'
                  = Some (refunded p
                          + (if truthy_dec requested then default 0 requested
                             else Payment.amount p))
    end.
Proof.
  split; [reflexivity|].
  unfold PaymentService.process_refund.
  destruct (payments !! pid) as [p|] eqn:Hp; [|by split].
  destruct (Payment.can_be_refunded p) eqn:Hcan; simpl;
    [|split; [done|rewrite Hcan; discriminate]].
  pose proof Hcan as Hs. apply can_be_refunded_iff in Hs.
  set (amt := if truthy_dec requested then default 0 requested
              else Payment.amount p).
  destruct (Payment.process_refund amt reason None p) as [p'|e] eqn:E.
  - destruct (process_refund_returned _ _ _ _ _ E)
      as (_ & _ & Hr & Hst & Ha).
    exists p, p'. repeat split; try done.
    unfold Payment.is_refunded. rewrite Hst. unfold status_after_refund.
    match goal with
    | |- context [if ?b then _ else _] => destruct b
    end; vm_compute; reflexivity.
  - split; [|by simpl; rewrite Hcan].
    destruct (decide (amt <= Payment.amount p - refunded p)) as [Hle|Hgt].
    + destruct (process_refund_accepts p amt reason None Hs Hle)
        as (q & Hq & _). congruence.
    + rewrite process_refund_exceeds in E by (done || lia). congruence.
Qed.

(** X7: [create_payment], given an id that is not in the table yet, never
    raises and stores the new payment under it, leaving the other rows as
    they are.  The payment carries the
    amount and the registration given, no refund and a payload that is
    never unset; it is [initiated] with the [local] provider and already
    [success] with any other provider. *)
Theorem create_payment_stores
    (payments : gmap UUID Payment.t) (id other : UUID) (amount : Decimal)
    (provider : Payment.PaymentProvider) (registration : option UUID)
    (metadata : option dict) :
  payments !! id = None →
  other ≠ id →
  ∃ p payments',
    PaymentService.create_payment id amount provider registration metadata
      payments
    = Returned (payments', p)
    ∧ payments' !! id = Some p
    ∧ payments' !! other = payments !! other
    ∧ Payment.amount p = amount
    ∧ Payment.registration_id p = registration
    ∧ Payment.refund_amount p = None
    ∧ is_Some (Payment.provider_payload p)
    ∧ Payment.status p
      = (if bool_decide (provider = Payment.LOCAL) then Payment.INITIATED
         else Payment.SUCCESS)
    ∧ Payment.can_be_refunded p = negb (bool_decide (provider = Payment.LOCAL)).
Proof.
  intros _ Hne. unfold PaymentService.create_payment.
  destruct provider; simpl; do 2 eexists; (split; [reflexivity|]);
    rewrite lookup_insert_eq, lookup_insert_ne by done;
    repeat split; eauto.
Qed.

(** X7 on an empty table. *)
Lemma create_payment_stores_witness :
  ∃ p payments',
    PaymentService.create_payment 7%positive 10000 Payment.RAZORPAY
      (Some 1%positive) None ∅
    = Returned (payments', p)
    ∧ payments' !! 7%positive = Some p
    ∧ payments' !! 8%positive = (∅ : gmap UUID Payment.t) !! 8%positive
    ∧ Payment.amount p = 10000
    ∧ Payment.registration_id p = Some 1%positive
    ∧ Payment.refund_amount p = None
    ∧ is_Some (Payment.provider_payload p)
    ∧ Payment.status p
      = (if bool_decide (Payment.RAZORPAY = Payment.LOCAL)
         then Payment.INITIATED else Payment.SUCCESS)
    ∧ Payment.can_be_refunded p
      = negb (bool_decide (Payment.RAZORPAY = Payment.LOCAL)).
Proof.
  apply (create_payment_stores ∅ 7%positive 8%positive 10000 Payment.RAZORPAY
           (Some 1%positive) None).
  - reflexivity.
  - done.
Defined.

(** ** Sport categories and sports: seats and age *)

(** X8: [available_spots] is never negative, also in an overbooked
    category, where it is 0; in a category within its capacity the
    available and the occupied seats add up to [max_participants]; and
    [can_register] holds only in an active category with a seat left. *)
Theorem available_spots_bounds
    (c : SportCategory.t) (age : Z) (gender : string) :
  0 <= SportCategory.available_spots c
  ∧ (within_capacity c →
     SportCategory.available_spots c + SportCategory.current_registrations c
     = SportCategory.max_participants c)
  ∧ (SportCategory.max_participants c < SportCategory.current_registrations c →
     SportCategory.available_spots c = 0)
  ∧ (∀ unicode_lower,
       SportCategory.can_register unicode_lower c age gender = true →
       1 <= SportCategory.available_spots c
       ∧ SportCategory.is_active c = true).
Proof.
  unfold within_capacity, SportCategory.can_register, SportCategory.is_full,
    SportCategory.available_spots.
  split; [lia|]. split; [lia|]. split; [lia|].
  intros unicode_lower Hcan.
  destruct (SportCategory.is_active c); [|done]. simpl in Hcan.
  destruct (Z.eqb_spec
              (0 `max` (SportCategory.max_participants c
                        - SportCategory.current_registrations c)) 0)
    as [Hz|Hz]; [done|].
  split; [lia|done].
Qed.

(** X8 on [full_house], on [overbooked] and on [one_seat]. *)
Lemma available_spots_bounds_witness :
  0 <= SportCategory.available_spots overbooked
  ∧ SportCategory.available_spots full_house
    + SportCategory.current_registrations full_house
    = SportCategory.max_participants full_house
  ∧ SportCategory.available_spots overbooked = 0
  ∧ (1 <= SportCategory.available_spots one_seat
     ∧ SportCategory.is_active one_seat = true).
Proof.
  destruct (available_spots_bounds overbooked 20 "male") as (H1 & _ & H3 & _).
  destruct (available_spots_bounds full_house 20 "male") as (_ & H2 & _).
  destruct (available_spots_bounds one_seat 20 "male") as (_ & _ & _ & H4).
  split; [exact H1|]. split; [|split].
  - apply H2. by vm_compute.
  - apply H3. reflexivity.
  - apply (H4 id). reflexivity.
Defined.

(** X9: an age is eligible exactly when it is not below [age_from] and not
    above [age_to], where a bound that is unset or 0 does not count: a
    category whose [age_to] is 0 admits every age above [age_from]. *)
Theorem age_eligibility (c : SportCategory.t) (age : Z) :
  SportCategory.is_age_eligible c age = true
  ↔ (∀ f, SportCategory.age_from c = Some f → f = 0 ∨ f <= age)
    ∧ (∀ t, SportCategory.age_to c = Some t → t = 0 ∨ age <= t).
Proof.
  assert (∀ o : option Z,
            truthy_dec o && bool_decide (age < default 0 o) = false
            ↔ ∀ f, o = Some f → f = 0 ∨ f <= age) as Hfrom.
  { intros [f|]; simpl; [|split; [intros _ ? [=]|done]].
    destruct (Z.eqb_spec f 0); simpl.
    - split; [intros _ ? [= <-]; lia|done].
    - case_bool_decide; split; try done.
      + intros H'. destruct (H' f eq_refl); lia.
      + intros _ ? [= <-]. lia. }
  assert (∀ o : option Z,
            truthy_dec o && bool_decide (age > default 0 o) = false
            ↔ ∀ t, o = Some t → t = 0 ∨ age <= t) as Hto.
  { intros [t|]; simpl; [|split; [intros _ ? [=]|done]].
    destruct (Z.eqb_spec t 0); simpl.
    - split; [intros _ ? [= <-]; lia|done].
    - case_bool_decide; split; try done.
      + intros H'. destruct (H' t eq_refl); lia.
      + intros _ ? [= <-]. lia. }
  rewrite <- Hfrom, <- Hto. unfold SportCategory.is_age_eligible.
  destruct (truthy_dec (SportCategory.age_from c) && _),
    (truthy_dec (SportCategory.age_to c) && _);
    (split; [try discriminate; by split|by intros [? ?]]).
Qed.

Lemma sport_registrations_acc (l : list SportCategory.t) (acc : Z) :
  fold_left
    (λ total category,
       if SportCategory.is_active category
       then total
            + Z.of_nat
                (List.length
                   (filter (λ r, SportCategory.counted r = true)
                      (SportCategory.registrations category)))
       else total) l acc
  = acc + sum_active SportCategory.current_registrations l.
Proof.
  revert acc. induction l as [|c l IH]; intros acc;
    [unfold sum_active; simpl; lia|].
  simpl. rewrite IH. unfold sum_active.
  destruct (SportCategory.is_active c) eqn:Hc.
  - rewrite filter_cons_True by done. simpl.
    unfold SportCategory.current_registrations at 2. lia.
  - rewrite filter_cons_False by (by rewrite Hc). lia.
Qed.

Lemma sport_capacity_acc (l : list SportCategory.t) (acc : Z) :
  fold_left (λ acc c, acc + SportCategory.max_participants c)
    (filter (λ c, SportCategory.is_active c = true) l) acc
  = acc + sum_active SportCategory.max_participants l.
Proof.
  unfold sum_active.
  generalize (filter (λ c, SportCategory.is_active c = true) l).
  intros k. revert acc. induction k as [|c k IH]; intros acc; [simpl; lia|].
  simpl. rewrite IH. lia.
Qed.

Lemma sum_active_le (l : list SportCategory.t) :
  Forall within_capacity (filter (λ c, SportCategory.is_active c = true) l) →
  sum_active SportCategory.current_registrations l
  <= sum_active SportCategory.max_participants l.
Proof.
  unfold sum_active.
  generalize (filter (λ c, SportCategory.is_active c = true) l).
  intros k Hk. induction Hk as [|c k Hc _ IH]; [done|].
  simpl. unfold within_capacity in Hc. lia.
Qed.

(** X10: the registrations a sport counts are the sum, over its active
    categories, of what each category counts, and its [total_capacity] the
    sum of their [max_participants]; inactive categories add nothing,
    whatever they hold, and there are never more active categories than
    categories.  When every active category is within its capacity the
    sport is within its [total_capacity]. *)
Theorem sport_totals (s : Sport.t) :
  Sport.current_registrations s
  = sum_active SportCategory.current_registrations (Sport.categories s)
  ∧ Sport.total_capacity s
    = sum_active SportCategory.max_participants (Sport.categories s)
  ∧ 0 <= Sport.active_categories s <= Sport.total_categories s
  ∧ (Forall within_capacity
       (filter (λ c, SportCategory.is_active c = true) (Sport.categories s)) →
     Sport.current_registrations s <= Sport.total_capacity s).
Proof.
  assert (Sport.current_registrations s
          = sum_active SportCategory.current_registrations (Sport.categories s))
    as H1.
  { unfold Sport.current_registrations. rewrite sport_registrations_acc. lia. }
  assert (Sport.total_capacity s
          = sum_active SportCategory.max_participants (Sport.categories s))
    as H2.
  { unfold Sport.total_capacity. rewrite sport_capacity_acc. lia. }
  split; [done|]. split; [done|]. split.
  - unfold Sport.active_categories, Sport.total_categories.
    pose proof (length_filter (λ c, SportCategory.is_active c = true)
                  (Sport.categories s)).
    lia.
  - intros Hcap. rewrite H1, H2. by apply sum_active_le.
Qed.

(** X10 on [overbooked_sport], whose only category holds two confirmed
    registrations for one seat, and on [two_category_sport], whose
    inactive category holds two counted registrations while the sport
    counts the one of [full_house]. *)
Lemma sport_totals_witness :
  Sport.current_registrations overbooked_sport
  = sum_active SportCategory.current_registrations
      (Sport.categories overbooked_sport)
  ∧ Sport.total_capacity overbooked_sport
    = sum_active SportCategory.max_participants
        (Sport.categories overbooked_sport)
  ∧ 0 <= Sport.active_categories two_category_sport
    <= Sport.total_categories two_category_sport
  ∧ Sport.current_registrations two_category_sport
    <= Sport.total_capacity two_category_sport.
Proof.
  destruct (sport_totals overbooked_sport) as (H1 & H2 & _).
  destruct (sport_totals two_category_sport) as (_ & _ & H3 & H4).
  split; [exact H1|]. split; [exact H2|]. split; [exact H3|].
  apply H4. vm_compute. repeat constructor. discriminate.
Defined.

(** ** Registrations: sequences of calls *)

Lemma registration_step_terminal (m : RegistrationCall) (r : Registration.t) :
  Registration.status r
  ∈ [Registration.CANCELLED; Registration.REJECTED; Registration.PAID] →
  settle r (invoke_registration m r) = r.
Proof.
  intros H. rewrite invoke_registration_refused; [done|].
  destruct m, (Registration.status r); first [reflexivity | by not_in_list H].
Qed.

Lemma registration_step_pending (m : RegistrationCall) (r : Registration.t) :
  Registration.status (settle r (invoke_registration m r))
  = Registration.PENDING →
  Registration.status r = Registration.PENDING.
Proof.
  rewrite status_after_call.
  destruct m, (Registration.status r); vm_compute; congruence.
Qed.

Lemma registration_step_identity (m : RegistrationCall) (r : Registration.t) :
  let r' := settle r (invoke_registration m r) in
  Registration.id r' = Registration.id r
  ∧ Registration.student_id r' = Registration.student_id r
  ∧ Registration.sport_category_id r' = Registration.sport_category_id r
  ∧ Registration.payment_id r' = Registration.payment_id r.
Proof.
  destruct m as [now|now reason|reason|]; simpl;
    unfold Registration.confirm, Registration.cancel, Registration.reject,
      Registration.mark_as_paid;
    repeat match goal with
           | |- context [if ?b then _ else _] => destruct b
           end; done.
Qed.

(** X11: along every sequence of calls of [confirm], [cancel], [reject]
    and [mark_as_paid], a registration that is [cancelled], [rejected] or
    [paid] stays exactly as it is; no registration comes back to
    [pending]; and the id, the student, the category and the payment of
    the registration never change. *)
Theorem registration_lifecycle
    (ms : list RegistrationCall) (r : Registration.t) :
  (Registration.status r
   ∈ [Registration.CANCELLED; Registration.REJECTED; Registration.PAID] →
   run_registration ms r = r)
  ∧ (Registration.status (run_registration ms r) = Registration.PENDING →
     Registration.status r = Registration.PENDING)
  ∧ Registration.id (run_registration ms r) = Registration.id r
  ∧ Registration.student_id (run_registration ms r) = Registration.student_id r
  ∧ Registration.sport_category_id (run_registration ms r)
    = Registration.sport_category_id r
  ∧ Registration.payment_id (run_registration ms r) = Registration.payment_id r.
Proof.
  revert r. induction ms as [|m ms IH]; intros r; [by repeat split|].
  change (run_registration (m :: ms) r)
    with (run_registration ms (settle r (invoke_registration m r))).
  destruct (IH (settle r (invoke_registration m r)))
    as (IH1 & IH2 & IH3 & IH4 & IH5 & IH6).
  destruct (registration_step_identity m r) as (S3 & S4 & S5 & S6).
  split; [|split; [|repeat split; congruence]].
  - intros H. rewrite registration_step_terminal in * by done. by apply IH1.
  - intros H. by apply (registration_step_pending m), IH2.
Qed.

(** X11 on [paid_reg] and on [confirmed_reg]. *)
Lemma registration_lifecycle_witness :
  run_registration [RCancel 3 None; RReject None; RConfirm 4] paid_reg
  = paid_reg
  ∧ Registration.status confirmed_reg ≠ Registration.PENDING
  ∧ Registration.status
      (run_registration [RCancel 3 None; RConfirm 4] confirmed_reg)
    ≠ Registration.PENDING.
Proof.
  destruct (registration_lifecycle [RCancel 3 None; RReject None; RConfirm 4]
              paid_reg) as (H1 & _).
  destruct (registration_lifecycle [RCancel 3 None; RConfirm 4] confirmed_reg)
    as (_ & H2 & _).
  split; [apply H1; in_list|].
  split; [discriminate|].
  intros H. apply H2 in H. discriminate.
Defined.

Lemma registration_step_stamped (m : RegistrationCall) (r : Registration.t) :
  stamped r → stamped (settle r (invoke_registration m r)).
Proof.
  intros [Hc Hx].
  destruct r as [i st cat status pay notes conf canc]. simpl in *.
  destruct m as [now|now reason|reason|]; simpl;
    unfold Registration.confirm, Registration.cancel, Registration.reject,
      Registration.mark_as_paid, Registration.can_be_cancelled;
    simpl; destruct status; simpl;
    try destruct (truthy_str reason); simpl;
    (split; simpl; intros H;
     first [ by eauto | by apply Hc | by apply Hx | by not_in_list H
           | by apply Hc; in_list ]).
Qed.

(** X12: the timestamps follow the status along every sequence of calls:
    if [confirmed_at] is set whenever the registration is [confirmed] or
    [paid], and [cancelled_at] whenever it is [cancelled], then the same
    holds after the calls; it holds for every new registration. *)
Theorem registration_timestamps
    (ms : list RegistrationCall) (r : Registration.t) :
  stamped r → stamped (run_registration ms r).
Proof.
  revert r. induction ms as [|m ms IH]; intros r Hr; [done|].
  apply IH. by apply registration_step_stamped.
Qed.

(** X12 on a new registration of [one_seat] that is confirmed, paid and
    then asked to cancel. *)
Lemma registration_timestamps_witness :
  stamped
    (run_registration [RConfirm 1; RMarkAsPaid; RCancel 2 None]
       (new_registration 1%positive 5%positive None one_seat)).
Proof.
  apply (registration_timestamps [RConfirm 1; RMarkAsPaid; RCancel 2 None]
           (new_registration 1%positive 5%positive None one_seat)).
  split; simpl; intros H; [by not_in_list H|discriminate].
Defined.

(** ** Sponsorships: the transition table and sequences of calls *)

(** X13: the whole transition table of [Sponsorship].  A call goes
    through exactly from the statuses its guard lists ([applied] for
    [mark_under_review]; [applied] and [under_review] for [approve] and
    [reject]; these and [approved] for [cancel]); it then sets the status
    of the method and keeps [requested_amount].  From every other status
    it raises the [ValueError] of the method. *)
Theorem sponsorship_transitions (m : SponsorshipCall) (s : Sponsorship.t) :
  if accepts m (Sponsorship.status s)
  then ∃ s', invoke_sponsorship m s = Returned s'
             ∧ Sponsorship.status s' = attempted m
             ∧ Sponsorship.requested_amount s'
               = Sponsorship.requested_amount s
  else invoke_sponsorship m s = Raised (ValueError (refusal m)).
Proof.
  destruct s as [req app st rev notes rej].
  destruct m as [reviewer|approved reviewer nts|reason reviewer|reason];
    destruct st; simpl;
    unfold Sponsorship.mark_under_review, Sponsorship.approve,
      Sponsorship.reject, Sponsorship.cancel, Sponsorship.when; simpl;
    try reflexivity; eexists; (split; [reflexivity|]);
    repeat match goal with
           | |- context [if ?b then _ else _] => destruct b
           end; by split.
Qed.

(** One call: it keeps [requested_amount]; it either goes through, from a
    status it accepts, or changes nothing; and [approved_amount] changes
    only when the status becomes [approved]. *)
Lemma sponsorship_step (m : SponsorshipCall) (s : Sponsorship.t) :
  let s' := settle s (invoke_sponsorship m s) in
  Sponsorship.requested_amount s' = Sponsorship.requested_amount s
  ∧ (accepts m (Sponsorship.status s) = true
     ∧ Sponsorship.status s' = attempted m
     ∨ s' = s)
  ∧ (Sponsorship.approved_amount s' = Sponsorship.approved_amount s
     ∨ Sponsorship.status s' = Sponsorship.APPROVED).
Proof.
  destruct s as [req app st rev notes rej].
  destruct m as [reviewer|approved reviewer nts|reason reviewer|reason];
    destruct st; simpl;
    unfold Sponsorship.mark_under_review, Sponsorship.approve,
      Sponsorship.reject, Sponsorship.cancel, Sponsorship.when; simpl;
    repeat match goal with
           | |- context [if ?b then _ else _] => destruct b
           end; simpl; repeat split; auto.
Qed.

(** X14: along every sequence of calls of the four methods, a sponsorship
    in a terminal state stays exactly as it is; [requested_amount] never
    changes; no call leads to [expired] or back to [applied]; an approved
    sponsorship can only stay [approved] or become [cancelled]; and on a
    sponsorship that started without [approved_amount], the amount is set
    only if the status is [approved] or [cancelled]. *)
Theorem sponsorship_lifecycle (ms : list SponsorshipCall) (s : Sponsorship.t) :
  (terminal (Sponsorship.status s) = true → run_sponsorship ms s = s)
  ∧ Sponsorship.requested_amount (run_sponsorship ms s)
    = Sponsorship.requested_amount s
  ∧ (Sponsorship.status (run_sponsorship ms s) = Sponsorship.EXPIRED →
     Sponsorship.status s = Sponsorship.EXPIRED)
  ∧ (Sponsorship.status (run_sponsorship ms s) = Sponsorship.APPLIED →
     Sponsorship.status s = Sponsorship.APPLIED)
  ∧ (Sponsorship.status s ∈ [Sponsorship.APPROVED; Sponsorship.CANCELLED] →
     Sponsorship.status (run_sponsorship ms s)
     ∈ [Sponsorship.APPROVED; Sponsorship.CANCELLED])
  ∧ (Sponsorship.approved_amount s = None →
     is_Some (Sponsorship.approved_amount (run_sponsorship ms s)) →
     Sponsorship.status (run_sponsorship ms s)
     ∈ [Sponsorship.APPROVED; Sponsorship.CANCELLED]).
Proof.
  revert s. induction ms as [|m ms IH]; intros s.
  { unfold run_sponsorship. simpl. repeat split; try done.
    intros -> [? [=]]. }
  change (run_sponsorship (m :: ms) s)
    with (run_sponsorship ms (settle s (invoke_sponsorship m s))).
  destruct (IH (settle s (invoke_sponsorship m s)))
    as (IH1 & IH2 & IH3 & IH4 & IH5 & IH6).
  destruct (sponsorship_step m s) as (S1 & S2 & S3).
  set (s' := settle s (invoke_sponsorship m s)) in *.
  split; [|split; [congruence|split; [|split; [|split]]]].
  - intros Ht. destruct S2 as [[Hacc _]|Heq].
    + destruct m, (Sponsorship.status s); vm_compute in Ht, Hacc; congruence.
    + rewrite Heq in *. by apply IH1.
  - intros H. apply IH3 in H. destruct S2 as [[_ Hst]|Heq]; [|congruence].
    rewrite Hst in H. by destruct m.
  - intros H. apply IH4 in H. destruct S2 as [[_ Hst]|Heq]; [|congruence].
    rewrite Hst in H. by destruct m.
  - intros H. apply IH5. destruct S2 as [[Hacc Hst]|Heq]; [|congruence].
    rewrite Hst.
    destruct m, (Sponsorship.status s); vm_compute in Hacc;
      first [discriminate | by not_in_list H | in_list].
  - intros Hnone Hsome.
    destruct (Sponsorship.approved_amount s') as [a|] eqn:Ha;
      [|by apply IH6].
    apply IH5. destruct S3 as [S3|S3]; [congruence|]. rewrite S3. in_list.
Qed.

(** X14 on [rejected_50000] and on [applied_50000] once approved. *)
Lemma sponsorship_lifecycle_witness :
  run_sponsorship [SApprove None None None; SCancel None] rejected_50000
  = rejected_50000
  ∧ Sponsorship.status
      (run_sponsorship [SReject "late" None; SCancel None]
         (run_sponsorship [SApprove None None None] applied_50000))
    ∈ [Sponsorship.APPROVED; Sponsorship.CANCELLED].
Proof.
  destruct (sponsorship_lifecycle [SApprove None None None; SCancel None]
              rejected_50000) as (H1 & _).
  destruct (sponsorship_lifecycle [SReject "late" None; SCancel None]
              (run_sponsorship [SApprove None None None] applied_50000))
    as (_ & _ & _ & _ & H5 & _).
  split; [apply H1; reflexivity|apply H5; in_list].
Defined.

(** ** The [reject] endpoint *)

(** X15: the [reject] endpoint checks [can_be_rejected] before it calls
    [Sponsorship.reject], so the [ValueError] of the model never reaches
    the caller.  It answers 404 for a missing sponsorship and 400 for one
    that is not [applied] or [under_review], leaving the table as it is;
    otherwise it commits the sponsorship as [rejected] with the reason
    given.  No other row is touched. *)
Theorem reject_endpoint
    (sponsorships : gmap UUID Sponsorship.t) (id other : UUID)
    (reason email : string) :
  other ≠ id →
  (SponsorshipApi.reject_sponsorship id reason email sponsorships).1 !! other
  = sponsorships !! other
  ∧ match sponsorships !! id with
    | None =>
        SponsorshipApi.reject_sponsorship id reason email sponsorships
        = (sponsorships,
           SponsorshipApi.HTTPException 404 "Sponsorship not found")
    | Some s =>
        if bool_decide (Sponsorship.status s
                        ∈ [Sponsorship.APPLIED; Sponsorship.UNDER_REVIEW])
        then ∃ s',
               SponsorshipApi.reject_sponsorship id reason email sponsorships
               = (<[id := s']> sponsorships,
                  SponsorshipApi.BaseResponse true
                    "Sponsorship rejected successfully")
               ∧ Sponsorship.status s' = Sponsorship.REJECTED
               ∧ Sponsorship.rejection_reason s' = Some reason
               ∧ Sponsorship.requested_amount s'
                 = Sponsorship.requested_amount s
               ∧ Sponsorship.approved_amount s' = Sponsorship.approved_amount s
        else SponsorshipApi.reject_sponsorship id reason email sponsorships
             = (sponsorships,
                SponsorshipApi.HTTPException 400
                  "Sponsorship cannot be rejected")
    end.
Proof.
  intros Hne. unfold SponsorshipApi.reject_sponsorship.
  destruct (sponsorships !! id) as [s|] eqn:Hs; [|done].
  unfold Sponsorship.reject, Sponsorship.can_be_rejected, Sponsorship.when.
  destruct (bool_decide (Sponsorship.status s
                         ∈ [Sponsorship.APPLIED; Sponsorship.UNDER_REVIEW]));
    simpl; [|done].
  rewrite lookup_insert_ne by done. split; [done|].
  eexists. split; [reflexivity|].
  destruct (negb (String.eqb email "")); by repeat split.
Qed.

(** X15 on a table that holds [applied_50000] under key 2. *)
Lemma reject_endpoint_witness :
  (SponsorshipApi.reject_sponsorship 2%positive "Budget exhausted"
     "admin@example.org" {[ 2%positive := applied_50000 ]}).1 !! 3%positive
  = ({[ 2%positive := applied_50000 ]} : gmap UUID Sponsorship.t) !! 3%positive
  ∧ match ({[ 2%positive := applied_50000 ]} : gmap UUID Sponsorship.t)
          !! 2%positive with
    | None =>
        SponsorshipApi.reject_sponsorship 2%positive "Budget exhausted"
          "admin@example.org" {[ 2%positive := applied_50000 ]}
        = ({[ 2%positive := applied_50000 ]},
           SponsorshipApi.HTTPException 404 "Sponsorship not found")
    | Some s =>
        if bool_decide (Sponsorship.status s
                        ∈ [Sponsorship.APPLIED; Sponsorship.UNDER_REVIEW])
        then ∃ s',
               SponsorshipApi.reject_sponsorship 2%positive "Budget exhausted"
                 "admin@example.org" {[ 2%positive := applied_50000 ]}
               = (<[2%positive := s']> {[ 2%positive := applied_50000 ]},
                  SponsorshipApi.BaseResponse true
                    "Sponsorship rejected successfully")
               ∧ Sponsorship.status s' = Sponsorship.REJECTED
               ∧ Sponsorship.rejection_reason s' = Some "Budget exhausted"
               ∧ Sponsorship.requested_amount s'
                 = Sponsorship.requested_amount s
               ∧ Sponsorship.approved_amount s' = Sponsorship.approved_amount s
        else SponsorshipApi.reject_sponsorship 2%positive "Budget exhausted"
               "admin@example.org" {[ 2%positive := applied_50000 ]}
             = ({[ 2%positive := applied_50000 ]},
                SponsorshipApi.HTTPException 400
                  "Sponsorship cannot be rejected")
    end.
Proof.
  apply (reject_endpoint {[ 2%positive := applied_50000 ]} 2%positive
           3%positive "Budget exhausted" "admin@example.org").
  done.
Defined.

(** ** JSON columns: reading back what was written *)

(** X16: [set_registration_data] followed by [get_registration_data] on
    the same key gives the value back, whether the column was unset, empty
    or filled, and every other key reads as before; the same holds for
    [set_terms] and [get_terms]. *)
Theorem json_column_round_trip
    (column : option dict) (key key' value : string)
    (fallback : option string) :
  key' ≠ key →
  Columns.get_registration_data key fallback
    (Columns.set_registration_data key value column) = Some value
  ∧ Columns.get_registration_data key' fallback
      (Columns.set_registration_data key value column)
    = Columns.get_registration_data key' fallback column
  ∧ Columns.get_terms key fallback (Columns.set_terms key value column)
    = Some value
  ∧ Columns.get_terms key' fallback (Columns.set_terms key value column)
    = Columns.get_terms key' fallback column.
Proof.
  intros Hne.
  unfold Columns.get_registration_data, Columns.set_registration_data,
    Columns.get_terms, Columns.set_terms.
  assert (∀ m : dict, bool_decide (<[key:=value]> m = ∅) = false) as Hins.
  { intros m. apply bool_decide_eq_false_2, insert_non_empty. }
  destruct column as [m|]; simpl.
  - destruct (bool_decide (m = ∅)) eqn:Hm; simpl; rewrite Hins; simpl.
    + apply bool_decide_eq_true_1 in Hm as ->.
      rewrite lookup_insert_eq, lookup_insert_ne, lookup_empty by done.
      repeat split.
    + rewrite lookup_insert_eq, lookup_insert_ne by done. repeat split.
  - rewrite Hins. simpl.
    rewrite lookup_insert_eq, lookup_insert_ne, lookup_empty by done.
    repeat split.
Qed.

(** X16 on an unset column. *)
Lemma json_column_round_trip_witness :
  Columns.get_registration_data "team" None
    (Columns.set_registration_data "team" "U-16" None) = Some "U-16"
  ∧ Columns.get_registration_data "size" None
      (Columns.set_registration_data "team" "U-16" None)
    = Columns.get_registration_data "size" None None
  ∧ Columns.get_terms "team" None (Columns.set_terms "team" "U-16" None)
    = Some "U-16"
  ∧ Columns.get_terms "size" None (Columns.set_terms "team" "U-16" None)
    = Columns.get_terms "size" None None.
Proof.
  apply (json_column_round_trip None "team" "size" "U-16" None).
  vm_compute. discriminate.
Defined.

(** X17: [add_document_url] appends: the urls read after it are the urls
    read before it followed by the new one, whether [documents] was unset,
    empty, or lacked the ["urls"] entry.  The type of the url is recorded
    under ["types"], and the entries under other keys are kept. *)
Theorem document_urls_append
    (documents : option Columns.Documents) (url doc_type : string) :
  Columns.get_document_urls (Columns.add_document_url url doc_type documents)
  = Columns.get_document_urls documents ++ [url]
  ∧ ∃ doc, Columns.add_document_url url doc_type documents = Some doc
           ∧ Columns.types doc ≫= (λ m, m !! url) = Some doc_type
           ∧ Columns.others doc = default ∅ (Columns.others <$> documents).
Proof.
  unfold Columns.get_document_urls, Columns.add_document_url,
    Columns.truthy_documents.
  destruct documents as [[us ts os]|]; simpl.
  - destruct us as [l|], ts as [t|]; simpl;
      try (destruct (bool_decide (os = ∅)) eqn:Ho; simpl;
           try (apply bool_decide_eq_true_1 in Ho as ->));
      (split; [reflexivity|]); eexists; (split; [reflexivity|]); simpl;
      by rewrite lookup_insert_eq.
  - split; [reflexivity|]. eexists. split; [reflexivity|]. simpl.
    by rewrite lookup_insert_eq.
Qed.

(** ** Payments: what no sequence of calls changes, and a whole flow *)

Lemma payment_step_keeps (m : PaymentCall) (p : Payment.t) :
  let p' := settle p (invoke_payment m p) in
  Payment.registration_id p' = Payment.registration_id p
  ∧ Payment.provider p' = Payment.provider p
  ∧ (is_Some (Payment.refund_amount p) → is_Some (Payment.refund_amount p')).
Proof.
  destruct m as [pid data|reason data|reason|refund reason rid]; simpl.
  - unfold Payment.when. by destruct (truthy_str pid), (truthy_dict data).
  - unfold Payment.when. by destruct (truthy_str reason), (truthy_dict data).
  - unfold Payment.when. by destruct (truthy_str reason).
  - unfold Payment.process_refund, Payment.when.
    repeat match goal with
           | |- context [if ?b then _ else _] => destruct b
           end; simpl; repeat split; eauto.
Qed.

(** X18: along every sequence of calls of the [mark_*] methods and of
    [process_refund], the amount, the registration and the provider of a
    payment never change, and [refund_amount], once set, is never unset. *)
Theorem payment_sequence_keeps (ms : list PaymentCall) (p : Payment.t) :
  Payment.amount (run_payment ms p) = Payment.amount p
  ∧ Payment.registration_id (run_payment ms p) = Payment.registration_id p
  ∧ Payment.provider (run_payment ms p) = Payment.provider p
  ∧ (is_Some (Payment.refund_amount p) →
     is_Some (Payment.refund_amount (run_payment ms p))).
Proof.
  revert p. induction ms as [|m ms IH]; intros p; [by repeat split|].
  change (run_payment (m :: ms) p)
    with (run_payment ms (settle p (invoke_payment m p))).
  destruct (IH (settle p (invoke_payment m p))) as (I1 & I2 & I3 & I4).
  destruct (payment_step_keeps m p) as (S2 & S3 & S4).
  rewrite I1, I2, I3, invoke_payment_amount. repeat split; auto.
Qed.

(** X18 on [refunded_40], marked failed and then successful. *)
Lemma payment_sequence_keeps_witness :
  Payment.amount
    (run_payment [PMarkFailed None None; PMarkSuccessful None None] refunded_40)
  = Payment.amount refunded_40
  ∧ is_Some
      (Payment.refund_amount
         (run_payment [PMarkFailed None None; PMarkSuccessful None None]
            refunded_40)).
Proof.
  destruct (payment_sequence_keeps
              [PMarkFailed None None; PMarkSuccessful None None] refunded_40)
    as (H1 & _ & _ & H4).
  split; [exact H1|]. apply H4. vm_compute. eauto.
Defined.

(** X19: a whole flow through [PaymentService].  A payment created under a
    new id with the [local] provider, reported successful and refunded without an
    amount ends [refunded] with [refund_amount] equal to its amount; every
    later call of [process_refund] on it then returns [False] and leaves
    the table as it is. *)
Theorem service_refund_flow
    (payments : gmap UUID Payment.t) (id : UUID) (amount : Decimal)
    (registration : option UUID) (metadata data : option dict)
    (reason reason' : option string) (later : option Decimal) :
  payments !! id = None →
  let created :=
    committed payments
      (PaymentService.create_payment id amount Payment.LOCAL registration
         metadata payments) in
  let paid :=
    committed created
      (PaymentService.update_payment_status id Payment.SUCCESS data created) in
  let refunded_all :=
    committed paid (PaymentService.process_refund id None reason paid) in
  Payment.status <$> refunded_all !! id = Some Payment.REFUNDED
  ∧ Payment.refund_amount <$> refunded_all !! id = Some (Some amount)
  ∧ PaymentService.process_refund id later reason' refunded_all
    = Returned (refunded_all, false).
Proof.
  intros _ created paid refunded_all.
  set (p0 := Payment.mk registration amount Payment.INITIATED Payment.LOCAL
               None
               (Some (if truthy_dict metadata then default ∅ metadata else ∅))
               None None None None false).
  assert (created = <[id := p0]> payments) as Hc by reflexivity.
  destruct (mark_returns p0 (get_if data "payment_id") data)
    as ((p1 & Hp1 & Hs1 & Ha1 & Hr1) & _).
  change (Payment.amount p0) with amount in Ha1.
  change (Payment.refund_amount p0) with (@None Decimal) in Hr1.
  assert (paid = <[id := p1]> created) as Hpaid.
  { unfold paid, PaymentService.update_payment_status.
    by rewrite Hc, lookup_insert_eq, Hp1. }
  destruct (process_refund_accepts p1 amount reason None Hs1)
    as (p2 & Hp2 & Hr2 & Hs2 & Ha2).
  { unfold refunded. rewrite Hr1, Ha1. simpl. lia. }
  assert (refunded_all = <[id := p2]> paid) as Hall.
  { unfold refunded_all, PaymentService.process_refund.
    rewrite Hpaid, lookup_insert_eq, (can_be_refunded_success p1 Hs1).
    simpl. by rewrite Ha1, Hp2. }
  unfold refunded in Hr2, Hs2. rewrite Hr1 in Hr2, Hs2. rewrite Ha1 in Hs2.
  simpl in Hr2, Hs2.
  unfold status_after_refund in Hs2.
  rewrite bool_decide_eq_true_2 in Hs2 by lia.
  rewrite Hall, !lookup_insert_eq. simpl. rewrite Hs2, Hr2.
  split; [done|]. split; [done|].
  unfold PaymentService.process_refund. rewrite lookup_insert_eq.
  rewrite can_be_refunded_other; [done|]. by rewrite Hs2.
Qed.

(** X19 on an empty table: payment 7 of 100.00, and a later request to
    refund 10.00. *)
Lemma service_refund_flow_witness :
  Payment.status <$> committed table_success
                       (PaymentService.process_refund 7%positive None None
                          table_success) !! 7%positive
  = Some Payment.REFUNDED
  ∧ Payment.refund_amount
    <$> committed table_success
          (PaymentService.process_refund 7%positive None None table_success)
        !! 7%positive
    = Some (Some 10000)
  ∧ PaymentService.process_refund 7%positive (Some 1000) None
      (committed table_success
         (PaymentService.process_refund 7%positive None None table_success))
    = Returned
        (committed table_success
           (PaymentService.process_refund 7%positive None None table_success),
         false).
Proof.
  apply (service_refund_flow ∅ 7%positive 10000 (Some 1%positive) None None
           None None (Some 1000)).
  reflexivity.
Defined.
